(** * LC-3 virtual machine ([vm.c]): shallow embedding and properties

    The C program keeps its machine state in two global arrays,
    [memory] and [reg], and a local [running] flag of [main].  The
    embedding below follows the source function by function:
    [update_flags], [sign_extend], [add], [ldi] and the fetch / decode /
    dispatch loop of [main].  Unsigned 16-bit values are integers in
    [0, 65536) with the truncation written out; arrays are lists indexed
    with bounds checks, an access outside the array giving [None]. *)

From Stdlib Require Import ZArith Lia Bool.
From stdpp Require Import base option list.

Local Open Scope Z_scope.

(** ** Machine integers *)

Module Int.

(** Conversion to [uint16_t]: the value modulo 2^16. *)
Definition to_uint16 (z : Z) : Z := z mod 65536.

(** A value of C type [int] (32 bits, two's complement), overflow
    wrapping around. *)
Definition to_int (z : Z) : Z := (z + 2 ^ 31) mod 2 ^ 32 - 2 ^ 31.

(** Truth value of a C scalar used as a condition: non-zero. *)
Definition truthy (z : Z) : bool := negb (z =? 0).

Definition is_uint16 (z : Z) : Prop := 0 <= z < 65536.

End Int.

Import Int.

(** ** [sign_extend]

<<
uint16_t sign_extend(uint16_t x, int bit_count)
{
    if ((x >> (bit_count - 1)) & 1) {
        x |= (0xFFFF << bit_count);
    }
    return x;
}
>>
    [0xFFFF] is an [int] constant, so the shift is done at type [int];
    the compound assignment converts the result back to [uint16_t]. *)
Definition sign_extend (x bit_count : Z) : Z :=
  if truthy (Z.land (Z.shiftr x (bit_count - 1)) 1)
  then to_uint16 (Z.lor x (to_int (Z.shiftl 0xFFFF bit_count)))
  else x.

(** ** Arrays

    A C array of [uint16_t] is a list of its cells.  Indexing outside the
    array is undefined behaviour in C; here it yields [None]. *)

Module Array.

Definition in_bounds (a : list Z) (i : Z) : bool :=
  (0 <=? i) && (i <? Z.of_nat (length a)).

Definition get (a : list Z) (i : Z) : option Z :=
  if in_bounds a i then a !! Z.to_nat i else None.

Definition set (a : list Z) (i v : Z) : option (list Z) :=
  if in_bounds a i then Some (<[Z.to_nat i := v]> a) else None.

End Array.

(** ** Constants of the source *)

(** [UINT16_MAX] of <stdint.h>. *)
Definition UINT16_MAX : Z := 65535.

(** [uint16_t memory[UINT16_MAX]]: the number of cells the array has. *)
Definition MEMORY_CELLS : Z := UINT16_MAX.

(** The register enumeration. *)
Definition R_R0 : Z := 0.
Definition R_R1 : Z := 1.
Definition R_R2 : Z := 2.
Definition R_R3 : Z := 3.
Definition R_R4 : Z := 4.
Definition R_R5 : Z := 5.
Definition R_R6 : Z := 6.
Definition R_R7 : Z := 7.
Definition R_PC : Z := 8.
Definition R_COND : Z := 9.
Definition R_COUNT : Z := 10.

(** The opcode enumeration. *)
Definition OP_BR : Z := 0.
Definition OP_ADD : Z := 1.
Definition OP_LD : Z := 2.
Definition OP_ST : Z := 3.
Definition OP_JSR : Z := 4.
Definition OP_AND : Z := 5.
Definition OP_LDR : Z := 6.
Definition OP_STR : Z := 7.
Definition OP_RTI : Z := 8.
Definition OP_NOT : Z := 9.
Definition OP_LDI : Z := 10.
Definition OP_STI : Z := 11.
Definition OP_JMP : Z := 12.
Definition OP_RES : Z := 13.
Definition OP_LEA : Z := 14.
Definition OP_TRAP : Z := 15.

(** The condition flags: [1 << 0], [1 << 1], [1 << 2]. *)
Definition FL_POS : Z := Z.shiftl 1 0.
Definition FL_ZRO : Z := Z.shiftl 1 1.
Definition FL_NEG : Z := Z.shiftl 1 2.

(** [enum { PC_START = 0x3000 }] of [main]. *)
Definition PC_START : Z := 0x3000.

(** ** Machine state *)

(** Modelled from the spec: the bad-opcode diagnostic, which vm.c never
    prints.  "a diagnostic identifying the opcode and the address it was
    fetched from". *)
Inductive diagnostic : Type :=
  | BadOpcode (opcode address : Z).

(** [reg] and [memory] are the two global arrays, [running] the loop
    variable of [main].  [input] (the bytes waiting on the console) and
    [log] (the diagnostics written so far) stand for the process's
    standard streams. *)
Record state : Type := mkState {
  reg : list Z;
  memory : list Z;
  running : bool;
  input : list Z;
  log : list diagnostic
}.

Definition with_reg (r : list Z) (s : state) : state :=
  mkState r (memory s) (running s) (input s) (log s).

Definition with_memory (m : list Z) (s : state) : state :=
  mkState (reg s) m (running s) (input s) (log s).

Definition with_running (b : bool) (s : state) : state :=
  mkState (reg s) (memory s) b (input s) (log s).

(** [reg[i]] as an rvalue. *)
Definition get_reg (i : Z) (s : state) : option Z := Array.get (reg s) i.

(** [reg[i] = v;] *)
Definition set_reg (i v : Z) (s : state) : option state :=
  r ← Array.set (reg s) i v; Some (with_reg r s).

(** The arrays have their declared sizes and hold 16-bit values in the
    registers. *)
Definition wf_reg (s : state) : Prop :=
  length (reg s) = Z.to_nat R_COUNT /\ Forall is_uint16 (reg s).

Definition wf_memory (s : state) : Prop :=
  length (memory s) = Z.to_nat MEMORY_CELLS.

(** ** [update_flags]

<<
void update_flags(uint16_t r)
{
    if (reg[r] == 0)            reg[R_COND] = FL_ZRO;
    else if (reg[r] >> 15)      reg[R_COND] = FL_NEG;
    else                        reg[R_COND] = FL_POS;
}
>> *)
Definition update_flags (r : Z) (s : state) : option state :=
  v ← get_reg r s;
  if v =? 0 then set_reg R_COND FL_ZRO s
  else if truthy (Z.shiftr v 15) then set_reg R_COND FL_NEG s
  else set_reg R_COND FL_POS s.

(** ** [add]

<<
void add(uint16_t instr) {
    uint16_t dr = (instr >> 9) & 0x7;
    uint16_t sr1 = (instr >> 6) & 0x7;
    uint16_t mode = (instr >> 5) & 0x1;
    if (mode) {
        uint16_t imm5 = sign_extend(instr & 0x1F, 5);
        reg[dr] = reg[sr1] + imm5;
    } else {
        uint16_t sr2 = instr & 0x7;
        reg[dr] = reg[sr1] + reg[sr2];
    }
    update_flags(dr);
}
>>
    (the source spells the type [unint16_t]).  The sum is computed at
    type [int] and converted to [uint16_t] by the assignment. *)
Definition add (instr : Z) (s : state) : option state :=
  let dr := Z.land (Z.shiftr instr 9) 0x7 in
  let sr1 := Z.land (Z.shiftr instr 6) 0x7 in
  let mode := Z.land (Z.shiftr instr 5) 0x1 in
  s' ← (if truthy mode then
          let imm5 := sign_extend (Z.land instr 0x1F) 5 in
          a ← get_reg sr1 s;
          set_reg dr (to_uint16 (a + imm5)) s
        else
          let sr2 := Z.land instr 0x7 in
          a ← get_reg sr1 s;
          b ← get_reg sr2 s;
          set_reg dr (to_uint16 (a + b)) s);
  update_flags dr s'.

(** ** The prologue of [main]

<<
    enum { PC_START = 0x3000 };
    reg[R_PC] = PC_START;
    int running = 1;
>>
    The loop is entered straight after these statements, so whatever
    ran before them (the loading of images) sees its value of the
    program counter replaced. *)
Definition main_init (s : state) : option state :=
  s' ← set_reg R_PC PC_START s;
  Some (with_running true s').

(** ** Memory writes and the image loader *)

(** Modelled from the spec: [mem_write], absent from vm.c.  "store value
    at masked address; no side effects". *)
Definition mem_write (address value : Z) (s : state) : option state :=
  m ← Array.set (memory s) (address mod 65536) value;
  Some (with_memory m s).

(** Modelled from the spec: the image file format, which vm.c does not
    read.  "sequence of big-endian 16-bit words"; a file with an odd
    number of bytes is truncated. *)
Fixpoint image_words (bytes : list Z) : option (list Z) :=
  match bytes with
  | [] => Some []
  | hi :: lo :: rest => ws ← image_words rest; Some ((hi * 256 + lo) :: ws)
  | _ => None
  end.

(** Modelled from the spec: the load origin of an image, "word 0". *)
Definition image_origin (bytes : list Z) : option Z :=
  ws ← image_words bytes; head ws.

(** Modelled from the spec: the words of an image "stored contiguously
    into memory", one [mem_write] each. *)
Fixpoint store_words (address : Z) (ws : list Z) (s : state) : option state :=
  match ws with
  | [] => Some s
  | w :: rest => s' ← mem_write address w s; store_words (address + 1) rest s'
  end.

(** Modelled from the spec: the image loader, absent from vm.c.  "word 0
    is the load origin address; subsequent words are stored contiguously
    into memory starting at that origin", and the program counter is
    "set by the loader".  A truncated file is a load error ([None]). *)
Definition read_image (bytes : list Z) (s : state) : option state :=
  ws ← image_words bytes;
  match ws with
  | [] => None
  | origin :: data =>
      s1 ← store_words origin data s;
      set_reg R_PC origin s1
  end.

(** Modelled from the spec: the order of a run, images "loaded in order
    before execution starts"; vm.c has no call to a loader.  Then the
    prologue of [main]. *)
Definition boot (bytes : list Z) (s : state) : option state :=
  s1 ← read_image bytes s; main_init s1.

(** The machine before anything is loaded: both arrays are
    zero-initialised globals. *)
Definition zero_state : state :=
  mkState (replicate (Z.to_nat R_COUNT) 0)
          (replicate (Z.to_nat MEMORY_CELLS) 0) false [] [].

(** ** Field extraction, in the words of the instruction-set description *)

(** Bits [hi:lo] of an instruction word, as an unsigned number. *)
Definition bits (hi lo w : Z) : Z := (w / 2 ^ lo) mod 2 ^ (hi - lo + 1).

(** The flag that summarises a 16-bit value: ZERO for 0, NEGATIVE when
    bit 15 is set, POSITIVE otherwise. *)
Definition flag_of (v : Z) : Z :=
  if v =? 0 then FL_ZRO else if Z.testbit v 15 then FL_NEG else FL_POS.

(** The C test [cond & flag]. *)
Definition flag_set (cond flag : Z) : bool := truthy (Z.land cond flag).

(** The flags register holds one flag and nothing else. *)
Definition single_flag (cond : Z) : Prop :=
  (cond = FL_POS /\ flag_set cond FL_ZRO = false /\ flag_set cond FL_NEG = false) \/
  (cond = FL_ZRO /\ flag_set cond FL_POS = false /\ flag_set cond FL_NEG = false) \/
  (cond = FL_NEG /\ flag_set cond FL_POS = false /\ flag_set cond FL_ZRO = false).

(** ** Fetch, decode, dispatch *)

Module VM.

Section Machine.

(** The address of the keyboard-status register, and what polling the
    console does to the pending input and to the status/data register
    pair in memory.  vm.c defines neither. *)
Variable MR_KBSR : Z.
Variable kbd_poll : list Z -> list Z -> list Z * list Z.

(** The bodies that [main] leaves as placeholders ([{AND, 7}],
    [{NOT, 7}], ...), by opcode: given the instruction word, a state
    transition. *)
Variable block : Z -> Z -> state -> option state.

(** Modelled from the spec: [mem_read], called by [main] but absent from
    vm.c.  "mask address to 16 bits; if address equals the
    keyboard-status address, first poll the console for pending input
    and refresh the status/data register pair, then return the requested
    cell's value". *)
Definition mem_read (address : Z) (s : state) : option (Z * state) :=
  let a := address mod 65536 in
  let s1 :=
    if a =? MR_KBSR then
      let '(i, m) := kbd_poll (input s) (memory s) in
      mkState (reg s) m (running s) i (log s)
    else s in
  v ← Array.get (memory s1) a;
  Some (v, s1).

(** Modelled from the spec: the body of [ldi] after the extraction of
    [dr].  The source has
<<
void ldi(uint16_t instr) {
    uint16_t dr = (instr >> 9) & 0x7;
    uint16_t offset = instr & 0x
>>
    and stops there, in the middle of a statement.  The rest follows
    "address = PC + sign_extend([8:0],9); dr :=
    memory.read(memory.read(address)); update_flags(dr)". *)
Definition ldi (instr : Z) (s : state) : option state :=
  let dr := Z.land (Z.shiftr instr 9) 0x7 in
  let offset := sign_extend (Z.land instr 0x1FF) 9 in
  pc ← get_reg R_PC s;
  '(a, s1) ← mem_read (to_uint16 (pc + offset)) s;
  '(v, s2) ← mem_read a s1;
  s3 ← set_reg dr v s2;
  update_flags dr s3.

(** Modelled from the spec: the [{BAD OPCODE, 7}] placeholder of [main].
    "execution halts with a diagnostic identifying the opcode and the
    address it was fetched from".  The program counter has already been
    incremented when the block runs, so the fetch address is one less. *)
Definition bad_opcode (op : Z) (s : state) : option state :=
  pc ← get_reg R_PC s;
  Some (mkState (reg s) (memory s) false (input s)
                (log s ++ [BadOpcode op (to_uint16 (pc - 1))])).

(** The [switch (op)] of [main], its cases in the order of the source. *)
Definition dispatch (op instr : Z) (s : state) : option state :=
  if op =? OP_ADD then add instr s
  else if op =? OP_AND then block OP_AND instr s
  else if op =? OP_NOT then block OP_NOT instr s
  else if op =? OP_BR then block OP_BR instr s
  else if op =? OP_JMP then block OP_JMP instr s
  else if op =? OP_JSR then block OP_JSR instr s
  else if op =? OP_LD then block OP_LD instr s
  else if op =? OP_LDI then block OP_LDI instr s
  else if op =? OP_LDR then block OP_LDR instr s
  else if op =? OP_LEA then block OP_LEA instr s
  else if op =? OP_ST then block OP_ST instr s
  else if op =? OP_STI then block OP_STI instr s
  else if op =? OP_STR then block OP_STR instr s
  else if op =? OP_TRAP then block OP_TRAP instr s
  else (* case OP_RES: case OP_RTI: default: *) bad_opcode op s.

(** [reg[R_PC]++]: the value of the expression is the old program
    counter; the register is incremented as a [uint16_t]. *)
Definition post_increment_pc (s : state) : option (Z * state) :=
  pc ← get_reg R_PC s;
  s' ← set_reg R_PC (to_uint16 (pc + 1)) s;
  Some (pc, s').

(** One iteration of the loop of [main]:
<<
        uint16_t instr = mem_read(reg[R_PC]++);
        uint16_t op = instr >> 12;
        switch (op) { ... }
>>
    The argument of [mem_read] is evaluated, increment included, before
    the call. *)
Definition step (s : state) : option state :=
  '(pc, s1) ← post_increment_pc s;
  '(instr, s2) ← mem_read pc s1;
  let op := Z.shiftr instr 12 in
  dispatch op instr s2.

(** [while (running) { ... }], for at most [fuel] iterations. *)
Fixpoint run (fuel : nat) (s : state) : option state :=
  match fuel with
  | O => Some s
  | S n => if running s then s' ← step s; run n s' else Some s
  end.

(** The opcodes [main] gives a case of their own. *)
Definition has_handler (op : Z) : bool :=
  (0 <=? op) && (op <=? 15) && negb (op =? OP_RES) && negb (op =? OP_RTI).

End Machine.

End VM.

Import VM.

(** ** Example machines and images *)

(** [memory[a] = v;] on a state. *)
Definition poke (a v : Z) (s : state) : state :=
  with_memory (<[Z.to_nat a := v]> (memory s)) s.

(** An image with origin 0x4000 followed by one data word, and one with
    origin 0x3000 followed by two data words. *)
Definition image_at_4000 : list Z := [0x40; 0x00; 0x12; 0x34].
Definition image_at_3000 : list Z := [0x30; 0x00; 0x12; 0x34; 0xAB; 0xCD].

(** The machine once [image_at_3000] is loaded into [s]. *)
Definition load_3000 (s : state) : state :=
  let s' := poke (0x3000 + 1) 0xABCD (poke 0x3000 0x1234 s) in
  with_reg (<[Z.to_nat R_PC := 0x3000]> (reg s')) s'.

Definition loaded_3000 : state := load_3000 zero_state.

(** Registers: R0 = 0x8000, R1 = 3, PC = 0x3000, the rest 0. *)
Definition example_regs : list Z := [0x8000; 3; 0; 0; 0; 0; 0; 0; 0x3000; 0].

Definition example_machine : state := with_reg example_regs zero_state.

(** The word at the program counter is [ADD R0, R1, #-2] (0x107E). *)
Definition example_add_machine : state := poke 0x3000 0x107E example_machine.

(** The word at the program counter has opcode RES (0xD000). *)
Definition example_res_machine : state := poke 0x3000 0xD000 example_machine.

(** An [LDI R2, #2] (0xA402) fetched from 0x3000 is being executed: the
    program counter is 0x3001, the cell at 0x3003 holds 0x3100 and the
    cell at 0x3100 holds 0x1234. *)
Definition example_ldi_machine : state :=
  poke 0x3100 0x1234
    (poke 0x3003 0x3100
       (with_reg [0; 0; 0; 0; 0; 0; 0; 0; 0x3001; 0] zero_state)).

(** A console with no keyboard activity, its status register at
    0xFE00, and placeholder blocks that do nothing. *)
Definition example_kbsr : Z := 0xFE00.
Definition example_poll (i m : list Z) : list Z * list Z := (i, m).
Definition example_block (op instr : Z) (s : state) : option state := Some s.

(** The program counter is at the last 16-bit address. *)
Definition example_last_pc_machine : state :=
  with_reg [0; 0; 0; 0; 0; 0; 0; 0; 0xFFFF; 0] zero_state.

(** ** Signed readings and the layouts of ADD *)

(** A 16-bit value read as a two's complement number. *)
Definition signed16 (v : Z) : Z := if v <? 32768 then v else v - 65536.

(** An [n]-bit field read as a two's complement number. *)
Definition signed_field (n x : Z) : Z := if x <? 2 ^ (n - 1) then x else x - 2 ^ n.

(** The two layouts drawn in the comment above [add]:
<<
op   dr  sr1 m    sr2            op   dr  sr1 m imm5
0001 001 010 0 00 011            0001 001 010 1 00101
>> *)
Definition add_reg_word (dr sr1 sr2 : Z) : Z :=
  0x1000 + dr * 512 + sr1 * 64 + sr2.

Definition add_imm_word (dr sr1 imm5 : Z) : Z :=
  0x1000 + dr * 512 + sr1 * 64 + 32 + imm5.

(** A running machine with [ADD R1, R1, #5] at 0x3000 and again at
    0x3001. *)
Definition example_two_adds_machine : state :=
  with_running true
    (poke (0x3000 + 1) (add_imm_word 1 1 (5 mod 32))
       (poke 0x3000 (add_imm_word 1 1 (5 mod 32)) example_machine)).

(** * Properties *)

(** ** Bit-level lemmas on machine integers *)

Section BitLemmas.

Lemma to_uint16_range z : is_uint16 (to_uint16 z).
Proof. unfold is_uint16, to_uint16. apply Z.mod_pos_bound. lia. Qed.

Lemma to_uint16_small z : is_uint16 z -> to_uint16 z = z.
Proof. unfold is_uint16, to_uint16. intros H. apply Z.mod_small. lia. Qed.

Lemma to_uint16_testbit z i :
  0 <= i < 16 -> Z.testbit (to_uint16 z) i = Z.testbit z i.
Proof.
  intros Hi. unfold to_uint16. change 65536 with (2 ^ 16).
  apply Z.mod_pow2_bits_low. lia.
Qed.

Lemma to_int_congr z : to_int z mod 2 ^ 32 = z mod 2 ^ 32.
Proof.
  unfold to_int. rewrite Zminus_mod_idemp_l. f_equal. lia.
Qed.

Lemma to_int_testbit z i :
  0 <= i < 32 -> Z.testbit (to_int z) i = Z.testbit z i.
Proof.
  intros Hi.
  rewrite <- (Z.mod_pow2_bits_low (to_int z) 32 i) by lia.
  rewrite to_int_congr. apply Z.mod_pow2_bits_low. lia.
Qed.

(** The test [(x >> k) & 1] of the source reads bit [k] of [x]. *)
Lemma truthy_shiftr_land1 x k :
  0 <= k -> truthy (Z.land (Z.shiftr x k) 1) = Z.testbit x k.
Proof.
  intros Hk. unfold truthy.
  change 1 with (Z.ones 1) at 1. rewrite Z.land_ones by lia.
  change (2 ^ 1) with 2. rewrite <- Z.bit0_mod.
  rewrite Z.shiftr_spec by lia. rewrite Z.add_0_l.
  destruct (Z.testbit x k); reflexivity.
Qed.

Lemma testbit_above x n i :
  0 <= n -> 0 <= x < 2 ^ n -> n <= i -> Z.testbit x i = false.
Proof.
  intros Hn Hx Hi.
  rewrite <- (Z.mod_small x (2 ^ n)) by lia.
  apply Z.mod_pow2_bits_high. lia.
Qed.

Lemma testbit_mask16_shiftl n i :
  0 <= n -> 0 <= i < 16 -> Z.testbit (Z.shiftl 0xFFFF n) i = (n <=? i).
Proof.
  intros Hn Hi. rewrite Z.shiftl_spec by lia.
  change 0xFFFF with (Z.ones 16).
  destruct (Z.leb_spec n i) as [Hle|Hlt].
  - apply Z.ones_spec_low. lia.
  - apply Z.testbit_neg_r. lia.
Qed.

(** Bit [i] of the result: the field's own bit below [n], a copy of the
    field's top bit from [n] upwards. *)
Lemma sign_extend_testbit x n i :
  1 <= n <= 16 -> 0 <= x < 2 ^ n -> 0 <= i < 16 ->
  Z.testbit (sign_extend x n) i =
  if i <? n then Z.testbit x i else Z.testbit x (n - 1).
Proof.
  intros Hn Hx Hi. unfold sign_extend.
  rewrite truthy_shiftr_land1 by lia.
  destruct (Z.testbit x (n - 1)) eqn:Htop.
  - rewrite to_uint16_testbit, Z.lor_spec, to_int_testbit by lia.
    rewrite testbit_mask16_shiftl by lia.
    destruct (Z.ltb_spec i n) as [Hlt|Hge].
    + replace (n <=? i) with false by (symmetry; apply Z.leb_gt; lia).
      apply orb_false_r.
    + replace (n <=? i) with true by (symmetry; apply Z.leb_le; lia).
      apply orb_true_r.
  - destruct (Z.ltb_spec i n) as [Hlt|Hge]; [reflexivity|].
    apply (testbit_above x n); lia.
Qed.

Lemma sign_extend_range x n :
  1 <= n <= 16 -> 0 <= x < 2 ^ n -> is_uint16 (sign_extend x n).
Proof.
  intros Hn Hx. unfold sign_extend.
  destruct (truthy _); [apply to_uint16_range|].
  unfold is_uint16. change 65536 with (2 ^ 16).
  assert (2 ^ n <= 2 ^ 16) by (apply Z.pow_le_mono_r; lia). lia.
Qed.

End BitLemmas.

(** ** Sign extension *)

(** C2. For a field [x] of [bit_count] bits, [1 <= bit_count <= 16],
    [sign_extend x bit_count] is a 16-bit value that keeps the bits of
    [x] below [bit_count] and has every bit from [bit_count] upwards
    equal to bit [bit_count - 1] of [x]: all ones when that bit is 1,
    all zeros otherwise.  [sign_extend 0b10000 5 = 0xFFF0] and
    [sign_extend 0b01111 5 = 0x000F].  The function is a pure map from
    arguments to result: it takes and returns no machine state. *)
Theorem sign_extend_fills_high_bits x bit_count :
  1 <= bit_count <= 16 -> 0 <= x < 2 ^ bit_count ->
  is_uint16 (sign_extend x bit_count) /\
  (forall i, 0 <= i < bit_count ->
     Z.testbit (sign_extend x bit_count) i = Z.testbit x i) /\
  (forall i, bit_count <= i < 16 ->
     Z.testbit (sign_extend x bit_count) i = Z.testbit x (bit_count - 1)) /\
  (forall i, 16 <= i -> Z.testbit (sign_extend x bit_count) i = false) /\
  sign_extend 16 5 = 0xFFF0 /\
  sign_extend 15 5 = 0x000F.
Proof.
  intros Hn Hx. split; [|split; [|split; [|split; [|split]]]].
  - apply sign_extend_range; assumption.
  - intros i Hi. rewrite sign_extend_testbit by lia.
    destruct (Z.ltb_spec i bit_count); [reflexivity | lia].
  - intros i Hi. rewrite sign_extend_testbit by lia.
    destruct (Z.ltb_spec i bit_count); [lia | reflexivity].
  - intros i Hi. apply (testbit_above _ 16); [lia | | lia].
    apply (sign_extend_range x bit_count); assumption.
  - reflexivity.
  - reflexivity.
Qed.

(** C9. [sign_extend] preserves the low bits of its input: for
    [1 <= n <= 16] and [x < 2^n], the result modulo [2^n] is [x]; and when
    bit [n - 1] of [x] is 0 the result is [x] itself. *)
Theorem sign_extend_preserves_low_bits x n :
  1 <= n <= 16 -> 0 <= x < 2 ^ n ->
  sign_extend x n mod 2 ^ n = x /\
  (Z.testbit x (n - 1) = false -> sign_extend x n = x).
Proof.
  intros Hn Hx. split.
  - apply Z.bits_inj'. intros i Hi.
    destruct (Z.ltb_spec i n) as [Hlt|Hge].
    + rewrite Z.mod_pow2_bits_low by lia.
      rewrite sign_extend_testbit by lia.
      destruct (Z.ltb_spec i n); [reflexivity | lia].
    + rewrite Z.mod_pow2_bits_high by lia.
      symmetry. apply (testbit_above x n); lia.
  - intros Htop. unfold sign_extend.
    rewrite truthy_shiftr_land1 by lia. rewrite Htop. reflexivity.
Qed.

(** ** The register file *)

Section RegisterFile.

Lemma in_bounds_spec a i :
  Array.in_bounds a i = true <-> 0 <= i < Z.of_nat (length a).
Proof.
  unfold Array.in_bounds. rewrite andb_true_iff, Z.leb_le, Z.ltb_lt. tauto.
Qed.

Lemma array_get_in_bounds a i :
  0 <= i < Z.of_nat (length a) -> exists v, Array.get a i = Some v /\ v ∈ a.
Proof.
  intros Hi. unfold Array.get.
  rewrite (proj2 (in_bounds_spec a i) Hi).
  destruct (lookup_lt_is_Some_2 a (Z.to_nat i)) as [v Hv]; [lia|].
  exists v. split; [assumption|]. apply list_elem_of_lookup. eauto.
Qed.

Lemma array_get_out_of_bounds a i :
  Z.of_nat (length a) <= i -> Array.get a i = None.
Proof.
  intros Hi. unfold Array.get, Array.in_bounds.
  replace (i <? Z.of_nat (length a)) with false by (symmetry; apply Z.ltb_ge; lia).
  rewrite andb_false_r. reflexivity.
Qed.

Lemma array_set_out_of_bounds a i v :
  Z.of_nat (length a) <= i -> Array.set a i v = None.
Proof.
  intros Hi. unfold Array.set, Array.in_bounds.
  replace (i <? Z.of_nat (length a)) with false by (symmetry; apply Z.ltb_ge; lia).
  rewrite andb_false_r. reflexivity.
Qed.

Lemma array_set_in_bounds a i v :
  0 <= i < Z.of_nat (length a) ->
  Array.set a i v = Some (<[Z.to_nat i := v]> a).
Proof.
  intros Hi. unfold Array.set.
  rewrite (proj2 (in_bounds_spec a i) Hi). reflexivity.
Qed.

Lemma array_get_insert a i j v :
  0 <= i < Z.of_nat (length a) -> 0 <= j ->
  Array.get (<[Z.to_nat i := v]> a) j =
  if j =? i then Some v else Array.get a j.
Proof.
  intros Hi Hj. unfold Array.get, Array.in_bounds.
  rewrite length_insert.
  destruct (Z.eqb_spec j i) as [->|Hne].
  - replace (0 <=? i) with true by (symmetry; apply Z.leb_le; lia).
    replace (i <? Z.of_nat (length a)) with true by (symmetry; apply Z.ltb_lt; lia).
    simpl. apply list_lookup_insert_eq. lia.
  - destruct ((0 <=? j) && (j <? Z.of_nat (length a))); [|reflexivity].
    apply list_lookup_insert_ne. lia.
Qed.

Lemma reg_count_bounds s i :
  length (reg s) = Z.to_nat R_COUNT -> 0 <= i < R_COUNT ->
  0 <= i < Z.of_nat (length (reg s)).
Proof. intros -> Hi. unfold R_COUNT in *. lia. Qed.

Lemma get_reg_total s i :
  wf_reg s -> 0 <= i < R_COUNT ->
  exists v, get_reg i s = Some v /\ is_uint16 v.
Proof.
  intros [Hlen Hall] Hi. unfold get_reg.
  destruct (array_get_in_bounds (reg s) i) as [v [Hv Hin]].
  { apply reg_count_bounds; assumption. }
  exists v. split; [assumption|].
  rewrite Forall_forall in Hall. apply Hall. assumption.
Qed.

Lemma set_reg_total s i v :
  length (reg s) = Z.to_nat R_COUNT -> 0 <= i < R_COUNT ->
  set_reg i v s = Some (with_reg (<[Z.to_nat i := v]> (reg s)) s).
Proof.
  intros Hlen Hi. unfold set_reg.
  rewrite array_set_in_bounds by (apply reg_count_bounds; assumption).
  reflexivity.
Qed.

Lemma get_reg_with_reg_insert s i j v :
  length (reg s) = Z.to_nat R_COUNT -> 0 <= i < R_COUNT -> 0 <= j ->
  get_reg j (with_reg (<[Z.to_nat i := v]> (reg s)) s) =
  if j =? i then Some v else get_reg j s.
Proof.
  intros Hlen Hi Hj. unfold get_reg. simpl.
  apply array_get_insert; [apply reg_count_bounds; assumption | assumption].
Qed.

Lemma wf_reg_ext s s' : reg s' = reg s -> wf_reg s -> wf_reg s'.
Proof. intros Heq [Hl Hf]. split; rewrite Heq; assumption. Qed.

Lemma wf_reg_insert s i v :
  wf_reg s -> is_uint16 v -> wf_reg (with_reg (<[Z.to_nat i := v]> (reg s)) s).
Proof.
  intros [Hlen Hall] Hv. split; simpl.
  - rewrite length_insert. assumption.
  - apply Forall_insert; assumption.
Qed.

(** On a 16-bit value the test [v >> 15] of [update_flags] reads bit 15. *)
Lemma truthy_shiftr15 v : is_uint16 v -> truthy (Z.shiftr v 15) = Z.testbit v 15.
Proof.
  intros Hv. unfold is_uint16 in Hv.
  replace (Z.testbit v 15) with (Z.testbit (Z.shiftr v 15) 0)
    by (rewrite Z.shiftr_spec by lia; reflexivity).
  rewrite Z.shiftr_div_pow2 by lia.
  assert (Hq : v / 2 ^ 15 = 0 \/ v / 2 ^ 15 = 1).
  { assert (0 <= v / 2 ^ 15) by (apply Z.div_pos; lia).
    assert (v / 2 ^ 15 < 2) by (apply Z.div_lt_upper_bound; lia).
    lia. }
  destruct Hq as [-> | ->]; reflexivity.
Qed.

Lemma flag_of_single v : single_flag (flag_of v).
Proof.
  unfold flag_of, single_flag.
  destruct (v =? 0); [|destruct (Z.testbit v 15)]; vm_compute; tauto.
Qed.

Lemma flag_of_is_uint16 v : is_uint16 (flag_of v).
Proof.
  unfold flag_of, is_uint16.
  destruct (v =? 0); [|destruct (Z.testbit v 15)]; vm_compute; split; congruence.
Qed.

(** [update_flags r] on a register holding [v]: the flags register
    becomes [flag_of v], nothing else changes. *)
Lemma update_flags_eq s r v :
  length (reg s) = Z.to_nat R_COUNT -> get_reg r s = Some v -> is_uint16 v ->
  update_flags r s =
  Some (with_reg (<[Z.to_nat R_COND := flag_of v]> (reg s)) s).
Proof.
  intros Hlen Hget Hv. unfold update_flags. rewrite Hget. simpl.
  unfold flag_of. rewrite truthy_shiftr15 by assumption.
  destruct (v =? 0); [|destruct (Z.testbit v 15)];
    apply set_reg_total; unfold R_COND, R_COUNT; auto; lia.
Qed.

End RegisterFile.

(** C3. For every register index [r], [update_flags r] leaves in the
    condition-flags register exactly one of POSITIVE, ZERO, NEGATIVE,
    the other two flags clear: ZERO when [reg[r]] is 0, NEGATIVE when
    bit 15 of [reg[r]] is set, POSITIVE otherwise.  [reg[r]] is the
    value the register holds when [update_flags] is called; no other
    register and no memory cell changes. *)
Theorem update_flags_exactly_one_flag r s :
  wf_reg s -> 0 <= r < R_COUNT ->
  exists v cond s',
    get_reg r s = Some v /\
    update_flags r s = Some s' /\
    get_reg R_COND s' = Some cond /\
    single_flag cond /\
    (v = 0 -> cond = FL_ZRO) /\
    (Z.testbit v 15 = true -> cond = FL_NEG) /\
    (v <> 0 -> Z.testbit v 15 = false -> cond = FL_POS) /\
    (forall j, 0 <= j -> j <> R_COND -> get_reg j s' = get_reg j s) /\
    memory s' = memory s /\ running s' = running s /\ wf_reg s'.
Proof.
  intros Hwf Hr.
  destruct (get_reg_total s r Hwf Hr) as [v [Hget Hv]].
  pose proof Hwf as [Hlen _].
  exists v, (flag_of v), (with_reg (<[Z.to_nat R_COND := flag_of v]> (reg s)) s).
  split; [assumption|].
  split; [apply update_flags_eq; assumption|].
  split.
  { rewrite get_reg_with_reg_insert by (unfold R_COND, R_COUNT; auto; lia).
    rewrite Z.eqb_refl. reflexivity. }
  split; [apply flag_of_single|].
  split.
  { intros ->. reflexivity. }
  split.
  { intros Hb. unfold flag_of. rewrite Hb.
    destruct (Z.eqb_spec v 0) as [->|]; [discriminate Hb | reflexivity]. }
  split.
  { intros Hnz Hb. unfold flag_of. rewrite Hb.
    destruct (Z.eqb_spec v 0); [contradiction | reflexivity]. }
  split.
  { intros j Hj Hne.
    rewrite get_reg_with_reg_insert by (unfold R_COND, R_COUNT; auto; lia).
    destruct (Z.eqb_spec j R_COND); [contradiction | reflexivity]. }
  split; [reflexivity|]. split; [reflexivity|].
  apply wf_reg_insert; [assumption | apply flag_of_is_uint16].
Qed.

(** ** Instruction fields *)

Section Fields.

(** The shift-and-mask idiom of the handlers extracts a bit field. *)
Lemma shift_mask_bits w lo k :
  0 <= lo -> 0 < k ->
  Z.land (Z.shiftr w lo) (Z.ones k) = bits (lo + k - 1) lo w.
Proof.
  intros Hlo Hk. unfold bits.
  rewrite Z.land_ones by lia. rewrite Z.shiftr_div_pow2 by lia.
  f_equal. f_equal. lia.
Qed.

Lemma mask_bits w k : 0 < k -> Z.land w (Z.ones k) = bits (k - 1) 0 w.
Proof.
  intros Hk. rewrite <- (Z.shiftr_0_r w) at 1.
  rewrite shift_mask_bits by lia. f_equal.
Qed.

Lemma bits_range hi lo w : lo <= hi -> 0 <= bits hi lo w < 2 ^ (hi - lo + 1).
Proof.
  intros H. unfold bits. apply Z.mod_pos_bound.
  apply Z.pow_pos_nonneg; lia.
Qed.

(** [bits hi lo w] is made of the bits [lo] to [hi] of [w]. *)
Lemma bits_testbit hi lo w i :
  0 <= lo <= hi -> 0 <= i ->
  Z.testbit (bits hi lo w) i =
  if i <=? hi - lo then Z.testbit w (i + lo) else false.
Proof.
  intros H Hi. unfold bits.
  destruct (Z.leb_spec i (hi - lo)) as [Hle|Hgt].
  - rewrite Z.mod_pow2_bits_low by lia.
    rewrite <- Z.shiftr_div_pow2 by lia. apply Z.shiftr_spec. lia.
  - apply Z.mod_pow2_bits_high. lia.
Qed.

Lemma add_dr_bits w : Z.land (Z.shiftr w 9) 0x7 = bits 11 9 w.
Proof. change 0x7 with (Z.ones 3). apply (shift_mask_bits w 9 3); lia. Qed.

Lemma add_sr1_bits w : Z.land (Z.shiftr w 6) 0x7 = bits 8 6 w.
Proof. change 0x7 with (Z.ones 3). apply (shift_mask_bits w 6 3); lia. Qed.

Lemma add_mode_bits w : Z.land (Z.shiftr w 5) 0x1 = bits 5 5 w.
Proof. change 0x1 with (Z.ones 1). apply (shift_mask_bits w 5 1); lia. Qed.

Lemma add_sr2_bits w : Z.land w 0x7 = bits 2 0 w.
Proof. change 0x7 with (Z.ones 3). apply (mask_bits w 3); lia. Qed.

Lemma add_imm5_bits w : Z.land w 0x1F = bits 4 0 w.
Proof. change 0x1F with (Z.ones 5). apply (mask_bits w 5); lia. Qed.

Lemma ldi_offset_bits w : Z.land w 0x1FF = bits 8 0 w.
Proof. change 0x1FF with (Z.ones 9). apply (mask_bits w 9); lia. Qed.

Lemma reg_field_range hi lo w : hi - lo = 2 -> 0 <= bits hi lo w < 8.
Proof.
  intros H. pose proof (bits_range hi lo w) as Hb.
  replace (hi - lo + 1) with 3 in Hb by lia. change (2 ^ 3) with 8 in Hb. lia.
Qed.

End Fields.

(** ** Writing a destination register and setting the flags from it *)

Section Destination.

(** What every handler with a destination register ends with:
    [reg[dr] = v; update_flags(dr);]. *)
Lemma write_then_flags s dr v :
  wf_reg s -> 0 <= dr < 8 -> is_uint16 v ->
  exists s1 s',
    set_reg dr v s = Some s1 /\
    update_flags dr s1 = Some s' /\
    get_reg dr s' = Some v /\
    get_reg R_COND s' = Some (flag_of v) /\
    (forall j, 0 <= j -> j <> dr -> j <> R_COND -> get_reg j s' = get_reg j s) /\
    memory s' = memory s /\ running s' = running s /\
    input s' = input s /\ log s' = log s /\ wf_reg s'.
Proof.
  intros Hwf Hdr Hv. pose proof Hwf as [Hlen _].
  assert (Hdr' : 0 <= dr < R_COUNT) by (unfold R_COUNT; lia).
  assert (Hcond : 0 <= R_COND < R_COUNT) by (unfold R_COND, R_COUNT; lia).
  set (s1 := with_reg (<[Z.to_nat dr := v]> (reg s)) s).
  assert (Hwf1 : wf_reg s1) by (apply wf_reg_insert; assumption).
  pose proof Hwf1 as [Hlen1 _].
  assert (Hget1 : get_reg dr s1 = Some v).
  { unfold s1. rewrite get_reg_with_reg_insert by (auto; lia).
    rewrite Z.eqb_refl. reflexivity. }
  set (s' := with_reg (<[Z.to_nat R_COND := flag_of v]> (reg s1)) s1).
  exists s1, s'.
  split; [apply set_reg_total; assumption|].
  split; [apply update_flags_eq; assumption|].
  split.
  { unfold s'. rewrite get_reg_with_reg_insert by (auto; lia).
    destruct (Z.eqb_spec dr R_COND) as [E|_]; [unfold R_COND in E; lia|].
    assumption. }
  split.
  { unfold s'. rewrite get_reg_with_reg_insert by (auto; lia).
    rewrite Z.eqb_refl. reflexivity. }
  split.
  { intros j Hj Hjd Hjc. unfold s'.
    rewrite get_reg_with_reg_insert by (auto; lia).
    destruct (Z.eqb_spec j R_COND); [contradiction|].
    unfold s1. rewrite get_reg_with_reg_insert by (auto; lia).
    destruct (Z.eqb_spec j dr); [contradiction | reflexivity]. }
  repeat (split; [reflexivity|]).
  apply wf_reg_insert; [assumption | apply flag_of_is_uint16].
Qed.

(** The effect of [add], by the fields of the instruction word. *)
Lemma add_effect instr s :
  wf_reg s ->
  exists a operand s',
    get_reg (bits 8 6 instr) s = Some a /\
    (bits 5 5 instr = 1 -> operand = sign_extend (bits 4 0 instr) 5) /\
    (bits 5 5 instr <> 1 -> get_reg (bits 2 0 instr) s = Some operand) /\
    add instr s = Some s' /\
    get_reg (bits 11 9 instr) s' = Some ((a + operand) mod 65536) /\
    get_reg R_COND s' = Some (flag_of ((a + operand) mod 65536)) /\
    (forall j, 0 <= j -> j <> bits 11 9 instr -> j <> R_COND ->
       get_reg j s' = get_reg j s) /\
    memory s' = memory s /\ running s' = running s /\
    input s' = input s /\ log s' = log s /\ wf_reg s'.
Proof.
  intros Hwf. unfold add.
  rewrite add_dr_bits, add_sr1_bits, add_mode_bits, add_sr2_bits, add_imm5_bits.
  pose proof (reg_field_range 11 9 instr eq_refl) as Hdr.
  pose proof (reg_field_range 8 6 instr eq_refl) as Hsr1.
  pose proof (reg_field_range 2 0 instr eq_refl) as Hsr2.
  pose proof (bits_range 5 5 instr ltac:(lia)) as Hmode.
  change (2 ^ (5 - 5 + 1)) with 2 in Hmode.
  destruct (get_reg_total s (bits 8 6 instr) Hwf) as [a [Ha Hau]];
    [unfold R_COUNT; lia|].
  destruct (get_reg_total s (bits 2 0 instr) Hwf) as [b [Hb Hbu]];
    [unfold R_COUNT; lia|].
  rewrite Ha, Hb. simpl.
  unfold truthy. destruct (Z.eqb_spec (bits 5 5 instr) 0) as [Hm|Hm]; simpl.
  - destruct (write_then_flags s (bits 11 9 instr) (to_uint16 (a + b)) Hwf Hdr
                (to_uint16_range _)) as (s1 & s' & Hset & Hfl & Hrest).
    exists a, b, s'. rewrite Hset. simpl. rewrite Hfl.
    split; [reflexivity|]. split; [lia|]. split; [reflexivity|].
    split; [reflexivity|]. exact Hrest.
  - set (imm5 := sign_extend (bits 4 0 instr) 5).
    destruct (write_then_flags s (bits 11 9 instr) (to_uint16 (a + imm5)) Hwf Hdr
                (to_uint16_range _)) as (s1 & s' & Hset & Hfl & Hrest).
    exists a, imm5, s'. rewrite Hset. simpl. rewrite Hfl.
    split; [reflexivity|]. split; [reflexivity|]. split; [lia|].
    split; [reflexivity|]. exact Hrest.
Qed.

End Destination.

(** ** Register accesses of [add] *)

Lemma update_flags_total s r :
  length (reg s) = Z.to_nat R_COUNT -> 0 <= r < R_COUNT ->
  is_Some (update_flags r s).
Proof.
  intros Hlen Hr. unfold update_flags, get_reg.
  destruct (array_get_in_bounds (reg s) r) as [v [-> _]];
    [apply reg_count_bounds; assumption|].
  simpl.
  destruct (v =? 0); [|destruct (truthy _)];
    rewrite set_reg_total by (unfold R_COND, R_COUNT; auto; lia); eauto.
Qed.

(** C10. [add] masks every register index it extracts with [0x7], so
    for every instruction word the indices [dr], [sr1] and [sr2], and
    the index passed to [update_flags], are below 8, inside the
    [R_COUNT]-element register array: each read and the write made by
    the handler succeed, and so does the whole handler. *)
Theorem add_register_accesses_in_bounds instr s :
  length (reg s) = Z.to_nat R_COUNT ->
  let dr := Z.land (Z.shiftr instr 9) 0x7 in
  let sr1 := Z.land (Z.shiftr instr 6) 0x7 in
  let sr2 := Z.land instr 0x7 in
  (0 <= dr < 8 /\ 0 <= sr1 < 8 /\ 0 <= sr2 < 8 /\ 8 <= R_COUNT) /\
  Array.in_bounds (reg s) dr = true /\
  Array.in_bounds (reg s) sr1 = true /\
  Array.in_bounds (reg s) sr2 = true /\
  is_Some (get_reg sr1 s) /\
  is_Some (get_reg sr2 s) /\
  (forall v, is_Some (set_reg dr v s)) /\
  (exists v s1, set_reg dr v s = Some s1 /\ add instr s = update_flags dr s1) /\
  is_Some (add instr s).
Proof.
  intros Hlen dr sr1 sr2.
  assert (Hdr : 0 <= dr < 8)
    by (unfold dr; rewrite add_dr_bits; apply reg_field_range; reflexivity).
  assert (Hsr1 : 0 <= sr1 < 8)
    by (unfold sr1; rewrite add_sr1_bits; apply reg_field_range; reflexivity).
  assert (Hsr2 : 0 <= sr2 < 8)
    by (unfold sr2; rewrite add_sr2_bits; apply reg_field_range; reflexivity).
  assert (Hb : forall i, 0 <= i < 8 -> 0 <= i < Z.of_nat (length (reg s))).
  { intros i Hi. apply reg_count_bounds; [assumption | unfold R_COUNT; lia]. }
  destruct (array_get_in_bounds (reg s) sr1 (Hb _ Hsr1)) as [a [Ha _]].
  destruct (array_get_in_bounds (reg s) sr2 (Hb _ Hsr2)) as [b [Hb2 _]].
  assert (Hset : forall v, set_reg dr v s =
                           Some (with_reg (<[Z.to_nat dr := v]> (reg s)) s)).
  { intros v. apply set_reg_total; [assumption | unfold R_COUNT; lia]. }
  assert (Hadd : exists v s1, set_reg dr v s = Some s1 /\
                              add instr s = update_flags dr s1).
  { unfold add. fold dr sr1 sr2. unfold get_reg. rewrite Ha, Hb2. simpl.
    destruct (truthy _).
    - eexists _, _. split; [apply Hset|]. rewrite Hset. reflexivity.
    - eexists _, _. split; [apply Hset|]. rewrite Hset. reflexivity. }
  split; [unfold R_COUNT; lia|].
  split; [apply in_bounds_spec; auto|].
  split; [apply in_bounds_spec; auto|].
  split; [apply in_bounds_spec; auto|].
  split; [unfold get_reg; rewrite Ha; eauto|].
  split; [unfold get_reg; rewrite Hb2; eauto|].
  split; [intros v; rewrite Hset; eauto|].
  split; [exact Hadd|].
  destruct Hadd as (v & s1 & Hs1 & ->).
  apply update_flags_total; [|unfold R_COUNT; lia].
  rewrite Hset in Hs1. injection Hs1 as <-. simpl.
  rewrite length_insert. assumption.
Qed.

(** ** Run start *)

Section RunStart.

Lemma main_init_inv s s' :
  main_init s = Some s' ->
  running s' = true /\ get_reg R_PC s' = Some PC_START /\ memory s' = memory s.
Proof.
  unfold main_init, set_reg, Array.set.
  destruct (Array.in_bounds (reg s) R_PC) eqn:Hb; simpl; [|discriminate].
  intros [= <-]. apply in_bounds_spec in Hb.
  split; [reflexivity|]. split; [|reflexivity].
  unfold get_reg. simpl. rewrite array_get_insert by (unfold R_PC in *; lia).
  rewrite Z.eqb_refl. reflexivity.
Qed.

Lemma main_init_total s :
  length (reg s) = Z.to_nat R_COUNT -> is_Some (main_init s).
Proof.
  intros Hlen. unfold main_init.
  rewrite set_reg_total by (unfold R_PC, R_COUNT; auto; lia). simpl. eauto.
Qed.

Lemma mem_write_reg a v s s' : mem_write a v s = Some s' -> reg s' = reg s.
Proof.
  unfold mem_write. destruct (Array.set _ _ _); simpl; [|discriminate].
  intros [= <-]. reflexivity.
Qed.

Lemma store_words_reg ws : forall a s s',
  store_words a ws s = Some s' -> reg s' = reg s.
Proof.
  induction ws as [|w ws IH]; intros a s s'; simpl.
  - intros [= <-]. reflexivity.
  - destruct (mem_write a w s) as [s1|] eqn:Hw; simpl; [|discriminate].
    intros Hrest. rewrite (IH _ _ _ Hrest). eapply mem_write_reg; eassumption.
Qed.

Lemma read_image_reg_length bytes s s' :
  read_image bytes s = Some s' -> length (reg s') = length (reg s).
Proof.
  unfold read_image. destruct (image_words bytes) as [[|origin data]|]; simpl;
    try discriminate.
  destruct (store_words origin data s) as [s1|] eqn:Hst; simpl; [|discriminate].
  unfold set_reg, Array.set.
  destruct (Array.in_bounds _ _); simpl; [|discriminate].
  intros [= <-]. simpl. rewrite length_insert.
  f_equal. eapply store_words_reg; eassumption.
Qed.

Lemma zero_state_wf : wf_reg zero_state /\ wf_memory zero_state.
Proof.
  unfold wf_reg, wf_memory, zero_state. cbn [reg memory].
  rewrite !length_replicate. repeat split.
  apply Forall_replicate. unfold is_uint16. lia.
Qed.

Lemma mem_write_total a v s :
  wf_memory s -> 0 <= a < MEMORY_CELLS ->
  mem_write a v s = Some (with_memory (<[Z.to_nat a := v]> (memory s)) s).
Proof.
  intros Hm Ha. unfold mem_write. unfold MEMORY_CELLS, UINT16_MAX in Ha.
  rewrite Z.mod_small by lia.
  rewrite array_set_in_bounds; [reflexivity|].
  rewrite Hm. unfold MEMORY_CELLS, UINT16_MAX. lia.
Qed.

Lemma store_words_total ws : forall a s,
  wf_memory s -> 0 <= a -> a + Z.of_nat (length ws) <= MEMORY_CELLS ->
  exists s', store_words a ws s = Some s' /\ wf_memory s' /\ reg s' = reg s.
Proof.
  induction ws as [|w ws IH]; intros a s Hm Ha Hend; simpl.
  - eauto.
  - simpl length in Hend.
    rewrite mem_write_total by (auto; lia). simpl.
    destruct (IH (a + 1) (with_memory (<[Z.to_nat a := w]> (memory s)) s))
      as (s' & Hs' & Hm' & Hr'); [|lia|lia|eauto].
    unfold wf_memory in *. simpl. rewrite length_insert. assumption.
Qed.

Lemma read_image_total bytes origin data s :
  image_words bytes = Some (origin :: data) ->
  length (reg s) = Z.to_nat R_COUNT -> wf_memory s ->
  0 <= origin -> origin + Z.of_nat (length data) <= MEMORY_CELLS ->
  is_Some (read_image bytes s).
Proof.
  intros Hw Hlen Hm Ho Hend. unfold read_image. rewrite Hw. simpl.
  destruct (store_words_total data origin s Hm Ho Hend) as (s1 & -> & _ & Hr).
  simpl. rewrite set_reg_total; [eauto | congruence | unfold R_PC, R_COUNT; lia].
Qed.

End RunStart.

(** C6, as the code has it.  When the loop of [main] is entered the
    machine is RUNNING and the program counter is the constant
    [PC_START = 0x3000], whatever was loaded before and whatever the
    origin of the image; after loading an image whose origin word is
    0x3000 the program counter therefore equals that origin. *)
Theorem run_starts_at_pc_start bytes s0 s1 :
  length (reg s0) = Z.to_nat R_COUNT ->
  read_image bytes s0 = Some s1 ->
  (exists s,
      boot bytes s0 = Some s /\
      running s = true /\
      get_reg R_PC s = Some PC_START /\ PC_START = 0x3000 /\
      memory s = memory s1 /\
      (image_origin bytes = Some 0x3000 ->
       get_reg R_PC s = image_origin bytes)) /\
  (forall s, length (reg s) = Z.to_nat R_COUNT ->
     exists s', main_init s = Some s' /\
                running s' = true /\ get_reg R_PC s' = Some 0x3000).
Proof.
  intros Hlen Hload. split.
  - assert (Hlen1 : length (reg s1) = Z.to_nat R_COUNT).
    { rewrite <- Hlen. eapply read_image_reg_length; eassumption. }
    destruct (main_init_total s1 Hlen1) as [s Hs].
    destruct (main_init_inv _ _ Hs) as (Hrun & Hpc & Hmem).
    exists s. unfold boot. rewrite Hload. simpl.
    split; [assumption|]. split; [assumption|]. split; [assumption|].
    split; [reflexivity|]. split; [assumption|].
    intros ->. assumption.
  - intros s Hs. destruct (main_init_total s Hs) as [s' Hs'].
    destruct (main_init_inv _ _ Hs') as (Hrun & Hpc & _).
    exists s'. split; [assumption|]. split; assumption.
Qed.

(** C6 as stated fails: an image whose origin is 0x4000 loads, and the
    loop still starts with the program counter at 0x3000. *)
Lemma run_start_pc_differs_from_origin :
  ~ (forall bytes s0 s,
       boot bytes s0 = Some s -> get_reg R_PC s = image_origin bytes).
Proof.
  intros H.
  destruct zero_state_wf as [[Hlen _] Hmem].
  assert (Hload : is_Some (read_image image_at_4000 zero_state)).
  { apply (read_image_total image_at_4000 0x4000 [0x1234]);
      [reflexivity | assumption | assumption | lia |].
    unfold MEMORY_CELLS, UINT16_MAX. simpl length. lia. }
  destruct Hload as [s1 Hload].
  assert (Hlen1 : length (reg s1) = Z.to_nat R_COUNT).
  { rewrite <- Hlen. eapply read_image_reg_length; eassumption. }
  destruct (main_init_total s1 Hlen1) as [s Hs].
  destruct (main_init_inv _ _ Hs) as (_ & Hpc & _).
  assert (Hboot : boot image_at_4000 zero_state = Some s).
  { unfold boot. rewrite Hload. exact Hs. }
  specialize (H _ _ _ Hboot). rewrite Hpc in H. discriminate H.
Qed.

(** ** The execution loop *)

Section MachineProperties.

Context (MR_KBSR : Z) (kbd_poll : list Z -> list Z -> list Z * list Z).
Context (block : Z -> Z -> state -> option state).

Local Abbreviation mem_read := (VM.mem_read MR_KBSR kbd_poll).
Local Abbreviation ldi := (VM.ldi MR_KBSR kbd_poll).
Local Abbreviation dispatch := (VM.dispatch block).
Local Abbreviation step := (VM.step MR_KBSR kbd_poll block).
Local Abbreviation run := (VM.run MR_KBSR kbd_poll block).

(** [instr >> 12] on a 16-bit word is its opcode field, bits [15:12]. *)
Lemma decode_bits w : is_uint16 w -> Z.shiftr w 12 = bits 15 12 w.
Proof.
  intros Hw. unfold is_uint16 in Hw. unfold bits.
  rewrite Z.shiftr_div_pow2 by lia.
  symmetry. apply Z.mod_small. split.
  - apply Z.div_pos; lia.
  - apply Z.div_lt_upper_bound; lia.
Qed.

Lemma mem_read_inv a s v s1 :
  mem_read a s = Some (v, s1) ->
  reg s1 = reg s /\ running s1 = running s /\ log s1 = log s /\
  Array.get (memory s1) (a mod 65536) = Some v.
Proof.
  unfold VM.mem_read.
  destruct (a mod 65536 =? MR_KBSR).
  - destruct (kbd_poll (input s) (memory s)) as [i m]. cbn [memory].
    destruct (Array.get m (a mod 65536)) as [x|] eqn:Hx; simpl; [|discriminate].
    intros [= <- <-]. cbn [memory]. auto.
  - destruct (Array.get (memory s) (a mod 65536)) as [x|] eqn:Hx; simpl;
      [|discriminate].
    intros [= <- <-]. auto.
Qed.

(** Away from the keyboard-status address a read is a plain array access. *)
Lemma mem_read_plain a s :
  a mod 65536 <> MR_KBSR ->
  mem_read a s = (v ← Array.get (memory s) (a mod 65536); Some (v, s)).
Proof.
  intros Hne. unfold VM.mem_read.
  destruct (Z.eqb_spec (a mod 65536) MR_KBSR); [contradiction | reflexivity].
Qed.

(** [mem_read] does not look at the registers. *)
Lemma mem_read_with_reg r a s :
  mem_read a (with_reg r s) =
  '(v, s1) ← mem_read a s; Some (v, with_reg r s1).
Proof.
  unfold VM.mem_read.
  destruct (a mod 65536 =? MR_KBSR).
  - cbn [with_reg input memory reg running log].
    destruct (kbd_poll (input s) (memory s)) as [i m]. cbn [memory].
    destruct (Array.get m (a mod 65536)); reflexivity.
  - cbn [with_reg memory].
    destruct (Array.get (memory s) (a mod 65536)); reflexivity.
Qed.

Lemma mem_read_mod a s : mem_read (to_uint16 a) s = mem_read a s.
Proof.
  unfold VM.mem_read, to_uint16. rewrite Z.mod_mod by lia. reflexivity.
Qed.

(** [reg[R_PC]++] on a well-formed register file. *)
Lemma post_increment_pc_eq s pc :
  length (reg s) = Z.to_nat R_COUNT -> get_reg R_PC s = Some pc ->
  post_increment_pc s =
  Some (pc, with_reg (<[Z.to_nat R_PC := (pc + 1) mod 65536]> (reg s)) s).
Proof.
  intros Hlen Hpc. unfold post_increment_pc. rewrite Hpc. simpl.
  rewrite set_reg_total by (unfold R_PC, R_COUNT; auto; lia). reflexivity.
Qed.

(** One iteration in the order read, increment, decode, dispatch; the
    source increments before it reads. *)
Lemma step_read_then_increment s pc :
  length (reg s) = Z.to_nat R_COUNT -> get_reg R_PC s = Some pc ->
  step s =
  '(w, s2) ← mem_read pc s;
  s3 ← set_reg R_PC ((pc + 1) mod 65536) s2;
  dispatch (Z.shiftr w 12) w s3.
Proof.
  intros Hlen Hpc. unfold VM.step.
  rewrite (post_increment_pc_eq s pc Hlen Hpc). cbn [mbind option_bind].
  rewrite mem_read_with_reg.
  destruct (mem_read pc s) as [[w s2]|] eqn:Hread; [|reflexivity].
  cbn [mbind option_bind].
  destruct (mem_read_inv _ _ _ _ Hread) as (Hreg & _).
  rewrite set_reg_total by (rewrite ?Hreg; auto; unfold R_PC, R_COUNT; lia).
  cbn [mbind option_bind]. rewrite Hreg. reflexivity.
Qed.

(** One iteration, as a read at the old program counter followed by the
    increment and the dispatch on the opcode field. *)
Lemma step_eq s pc w s2 :
  length (reg s) = Z.to_nat R_COUNT -> get_reg R_PC s = Some pc ->
  mem_read pc s = Some (w, s2) -> is_uint16 w ->
  step s = dispatch (bits 15 12 w) w
             (with_reg (<[Z.to_nat R_PC := (pc + 1) mod 65536]> (reg s2)) s2).
Proof.
  intros Hlen Hpc Hread Hw. unfold VM.step.
  rewrite (post_increment_pc_eq s pc Hlen Hpc). simpl.
  rewrite mem_read_with_reg, Hread. simpl.
  rewrite decode_bits by assumption.
  destruct (mem_read_inv _ _ _ _ Hread) as (-> & _). reflexivity.
Qed.

Lemma run_halted n s : running s = false -> run n s = Some s.
Proof. intros H. destruct n; simpl; [|rewrite H]; reflexivity. Qed.

Lemma dispatch_no_handler op instr s :
  has_handler op = false -> dispatch op instr s = bad_opcode op s.
Proof.
  intros H. unfold VM.dispatch.
  repeat (match goal with
          | |- (if ?a =? ?c then _ else _) = _ =>
              destruct (Z.eqb_spec a c) as [->|?]
          end; [vm_compute in H; discriminate H|]).
  reflexivity.
Qed.

Lemma decrement_incremented pc :
  is_uint16 pc -> to_uint16 ((pc + 1) mod 65536 - 1) = pc.
Proof.
  intros Hpc. unfold to_uint16, is_uint16 in *.
  rewrite Zminus_mod_idemp_l. replace (pc + 1 - 1) with pc by lia.
  apply Z.mod_small. lia.
Qed.

(** The cases of the [switch] that have a block of their own. *)
Lemma dispatch_own_block op instr s :
  has_handler op = true -> op <> OP_ADD ->
  dispatch op instr s = block op instr s.
Proof.
  intros Hh Hne.
  assert (Hop : 0 <= op <= 15).
  { unfold has_handler in Hh.
    destruct (Z.leb_spec 0 op), (Z.leb_spec op 15); try discriminate Hh. lia. }
  assert (Hcases : op = 0 \/ op = 1 \/ op = 2 \/ op = 3 \/ op = 4 \/ op = 5 \/
                   op = 6 \/ op = 7 \/ op = 8 \/ op = 9 \/ op = 10 \/
                   op = 11 \/ op = 12 \/ op = 13 \/ op = 14 \/ op = 15) by lia.
  repeat (destruct Hcases as [E|Hcases];
          [rewrite E in *;
           first [reflexivity
                 | discriminate Hh
                 | exfalso; apply Hne; reflexivity]|]).
  rewrite Hcases in *. reflexivity.
Qed.

(** A read names a cell of the array at every address but 0xFFFF. *)
Lemma mem_read_in_array a s :
  wf_memory s ->
  length (kbd_poll (input s) (memory s)).2 = length (memory s) ->
  a mod 65536 <> 0xFFFF -> is_Some (mem_read a s).
Proof.
  intros Hm Hpoll Ha.
  assert (Hlen : Z.of_nat (length (memory s)) = 65535).
  { rewrite Hm. unfold MEMORY_CELLS, UINT16_MAX. lia. }
  assert (Hr : 0 <= a mod 65536 < 65536) by (apply Z.mod_pos_bound; lia).
  unfold VM.mem_read.
  destruct (a mod 65536 =? MR_KBSR).
  - destruct (kbd_poll (input s) (memory s)) as [i m]. cbn [memory].
    simpl in Hpoll.
    destruct (array_get_in_bounds m (a mod 65536)) as [x [-> _]];
      [lia | simpl; eauto].
  - destruct (array_get_in_bounds (memory s) (a mod 65536)) as [x [-> _]];
      [lia | simpl; eauto].
Qed.

(** At 0xFFFF it indexes the cell after the last one. *)
Lemma mem_read_past_array s :
  wf_memory s ->
  length (kbd_poll (input s) (memory s)).2 = length (memory s) ->
  mem_read 0xFFFF s = None.
Proof.
  intros Hm Hpoll.
  assert (Hlen : Z.of_nat (length (memory s)) = 65535).
  { rewrite Hm. unfold MEMORY_CELLS, UINT16_MAX. lia. }
  unfold VM.mem_read. change (0xFFFF mod 65536) with 65535.
  destruct (65535 =? MR_KBSR).
  - destruct (kbd_poll (input s) (memory s)) as [i m]. cbn [memory].
    simpl in Hpoll. rewrite array_get_out_of_bounds by lia. reflexivity.
  - rewrite array_get_out_of_bounds by lia. reflexivity.
Qed.

(** C7, on the code.  At every program counter but the last an
    iteration of the loop reads the word there, leaves the program
    counter incremented by 1 modulo 65536, takes bits [15:12] of the
    word as the opcode and goes to the case the [switch] has for it:
    [add] for ADD, the opcode's own block for the thirteen others, the
    last branch for RES and RTI.  The loop repeats while [running]
    holds.  At 0xFFFF the increment wraps the program counter to 0x0000,
    but the read indexes the cell after the end of the 65535-cell array
    (the defect of C4): the iteration reads no word of the memory and
    has no defined result. *)
Theorem step_fetch_increment_dispatch s :
  wf_reg s -> wf_memory s ->
  length (kbd_poll (input s) (memory s)).2 = length (memory s) ->
  exists pc s1,
    get_reg R_PC s = Some pc /\
    post_increment_pc s = Some (pc, s1) /\
    get_reg R_PC s1 = Some ((pc + 1) mod 65536) /\
    is_uint16 ((pc + 1) mod 65536) /\
    (pc <> 0xFFFF ->
       exists w s2 s3,
         mem_read pc s = Some (w, s2) /\
         set_reg R_PC ((pc + 1) mod 65536) s2 = Some s3 /\
         get_reg R_PC s3 = Some ((pc + 1) mod 65536) /\
         (is_uint16 w ->
            step s = dispatch (bits 15 12 w) w s3 /\
            (bits 15 12 w = OP_ADD -> step s = add w s3) /\
            (has_handler (bits 15 12 w) = true -> bits 15 12 w <> OP_ADD ->
               step s = block (bits 15 12 w) w s3) /\
            (has_handler (bits 15 12 w) = false ->
               step s = bad_opcode (bits 15 12 w) s3))) /\
    (pc = 0xFFFF ->
       get_reg R_PC s1 = Some 0x0000 /\
       Array.in_bounds (memory s) pc = false /\
       mem_read pc s = None /\
       mem_read pc s1 = None /\
       step s = None) /\
    (forall n, run (S n) s = if running s then s' ← step s; run n s' else Some s) /\
    (forall n, running s = false -> run n s = Some s).
Proof.
  intros Hwf Hmem Hpoll. pose proof Hwf as [Hlen _].
  assert (Hr : 0 <= R_PC < R_COUNT) by (unfold R_PC, R_COUNT; lia).
  destruct (get_reg_total s R_PC Hwf Hr) as [pc [Hpc Hpcu]].
  set (s1 := with_reg (<[Z.to_nat R_PC := (pc + 1) mod 65536]> (reg s)) s).
  assert (Hnew : get_reg R_PC s1 = Some ((pc + 1) mod 65536)).
  { unfold s1. rewrite get_reg_with_reg_insert by (auto; lia).
    rewrite Z.eqb_refl. reflexivity. }
  exists pc, s1. split; [assumption|].
  split; [apply post_increment_pc_eq; assumption|].
  split; [exact Hnew|]. split; [apply to_uint16_range|]. split.
  { intros Hne.
    assert (Hin : pc mod 65536 <> 0xFFFF).
    { rewrite Z.mod_small by exact Hpcu. assumption. }
    destruct (mem_read_in_array pc s Hmem Hpoll Hin) as [[w s2] Hread].
    destruct (mem_read_inv _ _ _ _ Hread) as (Hreg2 & _).
    assert (Hlen2 : length (reg s2) = Z.to_nat R_COUNT)
      by (rewrite Hreg2; assumption).
    exists w, s2, (with_reg (<[Z.to_nat R_PC := (pc + 1) mod 65536]> (reg s2)) s2).
    split; [assumption|]. split; [apply set_reg_total; assumption|]. split.
    { rewrite get_reg_with_reg_insert by (auto; lia).
      rewrite Z.eqb_refl. reflexivity. }
    intros Hw. rewrite (step_eq s pc w s2 Hlen Hpc Hread Hw).
    split; [reflexivity|]. split.
    - intros ->. unfold VM.dispatch. rewrite Z.eqb_refl. reflexivity.
    - split.
      + intros Hh Hadd. apply dispatch_own_block; assumption.
      + intros Hh. apply dispatch_no_handler. assumption. }
  split.
  { intros ->. split; [exact Hnew|].
    assert (Hnone : mem_read 0xFFFF s = None)
      by (apply mem_read_past_array; assumption).
    split.
    { unfold Array.in_bounds. rewrite Hmem. reflexivity. }
    split; [exact Hnone|]. split.
    - unfold s1. rewrite mem_read_with_reg, Hnone. reflexivity.
    - rewrite (step_read_then_increment s 0xFFFF Hlen Hpc), Hnone. reflexivity. }
  split; [intros n; reflexivity|].
  intros n. apply run_halted.
Qed.

(** C5. When the fetched word's opcode field is RES or RTI, or any
    value [main] has no case for, the iteration ends with the loop
    HALTED and no further instruction executes; the diagnostic names the
    opcode and the address the word was fetched from.  The iteration
    completes ([Some]): no array is accessed out of bounds. *)
Theorem bad_opcode_halts s pc w s2 :
  wf_reg s -> get_reg R_PC s = Some pc ->
  mem_read pc s = Some (w, s2) -> is_uint16 w ->
  bits 15 12 w = OP_RES \/ bits 15 12 w = OP_RTI \/
    has_handler (bits 15 12 w) = false ->
  exists s',
    step s = Some s' /\
    running s' = false /\
    log s' = log s ++ [BadOpcode (bits 15 12 w) pc] /\
    memory s' = memory s2 /\
    get_reg R_PC s' = Some ((pc + 1) mod 65536) /\
    (forall j, 0 <= j -> j <> R_PC -> get_reg j s' = get_reg j s) /\
    (forall n, run n s' = Some s').
Proof.
  intros Hwf Hpc Hread Hw Hop. pose proof Hwf as [Hlen Hall].
  assert (Hnone : has_handler (bits 15 12 w) = false).
  { destruct Hop as [-> | [-> | H]]; [reflexivity | reflexivity | exact H]. }
  assert (Hpcu : is_uint16 pc).
  { destruct (get_reg_total s R_PC Hwf) as [x [Hx Hxu]];
      [unfold R_PC, R_COUNT; lia|]. congruence. }
  destruct (mem_read_inv _ _ _ _ Hread) as (Hreg2 & Hrun2 & Hlog2 & _).
  rewrite (step_eq s pc w s2 Hlen Hpc Hread Hw).
  rewrite dispatch_no_handler by assumption.
  unfold bad_opcode.
  assert (Hget : forall j, 0 <= j ->
            get_reg j (with_reg (<[Z.to_nat R_PC := (pc + 1) mod 65536]> (reg s2)) s2)
            = if j =? R_PC then Some ((pc + 1) mod 65536) else get_reg j s).
  { intros j Hj. unfold get_reg. cbn [reg with_reg]. rewrite Hreg2.
    apply array_get_insert; [|assumption].
    apply reg_count_bounds; [assumption | unfold R_PC, R_COUNT; lia]. }
  rewrite Hget by (unfold R_PC; lia). rewrite Z.eqb_refl. cbn [mbind option_bind].
  eexists. split; [reflexivity|]. cbn [running log memory reg with_reg].
  split; [reflexivity|]. split.
  { rewrite decrement_incremented by assumption. rewrite Hlog2. reflexivity. }
  split; [reflexivity|]. split.
  { unfold get_reg in *. cbn [reg]. specialize (Hget R_PC ltac:(unfold R_PC; lia)).
    cbn [reg with_reg] in Hget. rewrite Hget, Z.eqb_refl. reflexivity. }
  split.
  { intros j Hj Hne. specialize (Hget j Hj). unfold get_reg in *.
    cbn [reg with_reg] in *. rewrite Hget.
    destruct (Z.eqb_spec j R_PC); [contradiction | reflexivity]. }
  intros n. apply run_halted. reflexivity.
Qed.

(** C1. For every instruction word whose opcode field is ADD the loop
    runs [add], which takes [dr] from bits [11:9], [sr1] from bits [8:6]
    and the mode from bit [5]; the second operand is
    [sign_extend (bits [4:0]) 5] when the mode bit is 1 and the register
    named by bits [2:0] otherwise; the destination becomes
    [reg[sr1]] plus the operand modulo 2^16, nothing trapping on
    overflow, and the condition flags are then set from the
    destination.  With [reg[1] = 3] and the word encoding [dr = 0],
    [sr1 = 1], mode 1, [imm5 = 0b11110] (0x107E), afterwards
    [reg[0] = 1] and the flag is POSITIVE. *)
Theorem add_instruction_semantics instr s :
  wf_reg s -> is_uint16 instr -> bits 15 12 instr = OP_ADD ->
  (exists a operand s',
      get_reg (bits 8 6 instr) s = Some a /\
      (bits 5 5 instr = 1 -> operand = sign_extend (bits 4 0 instr) 5) /\
      (bits 5 5 instr <> 1 -> get_reg (bits 2 0 instr) s = Some operand) /\
      dispatch (Z.shiftr instr 12) instr s = Some s' /\
      add instr s = Some s' /\
      get_reg (bits 11 9 instr) s' = Some ((a + operand) mod 65536) /\
      get_reg R_COND s' = Some (flag_of ((a + operand) mod 65536)) /\
      (forall j, 0 <= j -> j <> bits 11 9 instr -> j <> R_COND ->
         get_reg j s' = get_reg j s) /\
      memory s' = memory s /\ running s' = running s /\ log s' = log s) /\
  (forall s0, wf_reg s0 -> get_reg 1 s0 = Some 3 ->
     exists s',
       add 0x107E s0 = Some s' /\
       get_reg 0 s' = Some 1 /\ get_reg R_COND s' = Some FL_POS).
Proof.
  intros Hwf Hinstr Hop. split.
  - destruct (add_effect instr s Hwf)
      as (a & operand & s' & Ha & Himm & Hreg & Hadd & Hdr & Hcond & Hoth
          & Hmem & Hrun & _ & Hlog & _).
    exists a, operand, s'.
    repeat (split; [assumption|]).
    split.
    { rewrite decode_bits, Hop by assumption. unfold VM.dispatch.
      rewrite Z.eqb_refl. assumption. }
    repeat (split; [assumption|]). assumption.
  - intros s0 Hwf0 Hr1.
    destruct (add_effect 0x107E s0 Hwf0)
      as (a & operand & s' & Ha & Himm & _ & Hadd & Hdr & Hcond & _).
    change (bits 8 6 0x107E) with 1 in Ha. rewrite Hr1 in Ha.
    injection Ha as <-.
    rewrite (Himm eq_refl) in Hdr, Hcond.
    exists s'. split; [assumption|]. split; assumption.
Qed.

(** C4, on the code.  The array [memory] is declared with [UINT16_MAX]
    = 65535 cells, one fewer than the 65536 addresses: every masked
    address other than 0xFFFF names a cell, and address 0xFFFF, which
    masking leaves unchanged, lies outside the array, for a write and
    for a read alike. *)
Theorem memory_array_misses_last_address s v :
  wf_memory s ->
  length (kbd_poll (input s) (memory s)).2 = length (memory s) ->
  Z.of_nat (length (memory s)) = 65535 /\
  (forall a, a mod 65536 <> 0xFFFF ->
     Array.in_bounds (memory s) (a mod 65536) = true /\
     is_Some (mem_write a v s) /\ is_Some (mem_read a s)) /\
  0xFFFF mod 65536 = 0xFFFF /\
  Array.in_bounds (memory s) (0xFFFF mod 65536) = false /\
  mem_write 0xFFFF v s = None /\
  mem_read 0xFFFF s = None.
Proof.
  intros Hm Hpoll.
  assert (Hlen : Z.of_nat (length (memory s)) = 65535).
  { rewrite Hm. unfold MEMORY_CELLS, UINT16_MAX. lia. }
  split; [assumption|]. split.
  { intros a Ha.
    assert (Hr : 0 <= a mod 65536 < 65536) by (apply Z.mod_pos_bound; lia).
    assert (Hb : 0 <= a mod 65536 < Z.of_nat (length (memory s))) by lia.
    split; [apply in_bounds_spec; assumption|]. split.
    - unfold mem_write. rewrite array_set_in_bounds by assumption.
      simpl. eauto.
    - unfold VM.mem_read.
      destruct (a mod 65536 =? MR_KBSR).
      + destruct (kbd_poll (input s) (memory s)) as [i m]. cbn [memory].
        simpl in Hpoll.
        destruct (array_get_in_bounds m (a mod 65536)) as [x [-> _]];
          [lia | simpl; eauto].
      + destruct (array_get_in_bounds (memory s) (a mod 65536)) as [x [-> _]];
          [lia | simpl; eauto]. }
  split; [reflexivity|].
  change (0xFFFF mod 65536) with 65535. split.
  { unfold Array.in_bounds. rewrite Hlen. reflexivity. }
  split.
  { unfold mem_write. change (0xFFFF mod 65536) with 65535.
    rewrite array_set_out_of_bounds by lia. reflexivity. }
  unfold VM.mem_read. change (0xFFFF mod 65536) with 65535.
  destruct (65535 =? MR_KBSR).
  - destruct (kbd_poll (input s) (memory s)) as [i m]. cbn [memory].
    simpl in Hpoll. rewrite array_get_out_of_bounds by lia. reflexivity.
  - rewrite array_get_out_of_bounds by lia. reflexivity.
Qed.

(** C8. [ldi] takes [dr] from bits [11:9], forms the address
    [PC + sign_extend (bits [8:0]) 9], reads memory there, reads memory
    again at the value found, and puts the second value in [dr]; the
    condition flags are then set from [dr].  If memory at [PC + offset]
    holds 0x3100 and memory at 0x3100 holds 0x1234, the destination
    register receives 0x1234. *)
Theorem ldi_double_indirection instr s pc :
  wf_reg s -> get_reg R_PC s = Some pc ->
  (forall a s1 v s2,
     mem_read (pc + sign_extend (bits 8 0 instr) 9) s = Some (a, s1) ->
     mem_read a s1 = Some (v, s2) -> is_uint16 v ->
     exists s',
       ldi instr s = Some s' /\
       get_reg (bits 11 9 instr) s' = Some v /\
       get_reg R_COND s' = Some (flag_of v) /\
       (forall j, 0 <= j -> j <> bits 11 9 instr -> j <> R_COND ->
          get_reg j s' = get_reg j s) /\
       memory s' = memory s2 /\ running s' = running s) /\
  ((pc + sign_extend (bits 8 0 instr) 9) mod 65536 <> MR_KBSR ->
   0x3100 <> MR_KBSR ->
   Array.get (memory s) ((pc + sign_extend (bits 8 0 instr) 9) mod 65536)
     = Some 0x3100 ->
   Array.get (memory s) 0x3100 = Some 0x1234 ->
   exists s',
     ldi instr s = Some s' /\
     get_reg (bits 11 9 instr) s' = Some 0x1234 /\
     get_reg R_COND s' = Some FL_POS).
Proof.
  intros Hwf Hpc.
  assert (Hgen : forall a s1 v s2,
     mem_read (pc + sign_extend (bits 8 0 instr) 9) s = Some (a, s1) ->
     mem_read a s1 = Some (v, s2) -> is_uint16 v ->
     exists s',
       ldi instr s = Some s' /\
       get_reg (bits 11 9 instr) s' = Some v /\
       get_reg R_COND s' = Some (flag_of v) /\
       (forall j, 0 <= j -> j <> bits 11 9 instr -> j <> R_COND ->
          get_reg j s' = get_reg j s) /\
       memory s' = memory s2 /\ running s' = running s).
  { intros a s1 v s2 Hr1 Hr2 Hv.
    destruct (mem_read_inv _ _ _ _ Hr1) as (Hreg1 & Hrun1 & _).
    destruct (mem_read_inv _ _ _ _ Hr2) as (Hreg2 & Hrun2 & _).
    assert (Hwf2 : wf_reg s2).
    { apply (wf_reg_ext s); [congruence | assumption]. }
    destruct (write_then_flags s2 (bits 11 9 instr) v Hwf2
                (reg_field_range 11 9 instr eq_refl) Hv)
      as (s3 & s' & Hset & Hfl & Hdr & Hcond & Hoth & Hmem & Hrun & _).
    exists s'. unfold VM.ldi. rewrite add_dr_bits, ldi_offset_bits.
    rewrite Hpc. cbn [mbind option_bind].
    rewrite mem_read_mod, Hr1. cbn [mbind option_bind].
    rewrite Hr2. cbn [mbind option_bind].
    rewrite Hset. cbn [mbind option_bind].
    split; [assumption|]. split; [assumption|]. split; [assumption|].
    split.
    { intros j Hj Hjd Hjc. rewrite Hoth by assumption.
      unfold get_reg. congruence. }
    split; [assumption | congruence]. }
  split; [exact Hgen|].
  intros Hk1 Hk2 Hm1 Hm2.
  destruct (Hgen 0x3100 s 0x1234 s) as (s' & Hl & Hdr & Hcond & _).
  4: { exists s'. split; [assumption|]. split; assumption. }
  - rewrite mem_read_plain by assumption. rewrite Hm1. reflexivity.
  - rewrite mem_read_plain by (change (0x3100 mod 65536) with 0x3100; assumption).
    change (0x3100 mod 65536) with 0x3100. rewrite Hm2. reflexivity.
  - unfold is_uint16. lia.
Qed.

End MachineProperties.

(** ** The properties on example machines *)

Section Examples.

Lemma wf_memory_poke a v s : wf_memory s -> wf_memory (poke a v s).
Proof.
  unfold wf_memory, poke. cbn [memory with_memory]. intros Hm.
  rewrite length_insert. assumption.
Qed.

Lemma wf_memory_with_reg r s : wf_memory s -> wf_memory (with_reg r s).
Proof. unfold wf_memory. cbn [memory with_reg]. auto. Qed.

Lemma wf_reg_poke a v s : wf_reg s -> wf_reg (poke a v s).
Proof. intros H. apply (wf_reg_ext s); [reflexivity | assumption]. Qed.

Lemma wf_reg_with_reg r s :
  length r = Z.to_nat R_COUNT -> Forall is_uint16 r -> wf_reg (with_reg r s).
Proof. intros Hl Hf. split; assumption. Qed.

Lemma wf_reg_with_running b s : wf_reg s -> wf_reg (with_running b s).
Proof. intros H. apply (wf_reg_ext s); [reflexivity | assumption]. Qed.

Lemma memory_with_running b s : memory (with_running b s) = memory s.
Proof. reflexivity. Qed.

Lemma get_reg_poke i a v s : get_reg i (poke a v s) = get_reg i s.
Proof. reflexivity. Qed.

Lemma peek_poke a v s :
  wf_memory s -> 0 <= a < MEMORY_CELLS ->
  Array.get (memory (poke a v s)) a = Some v.
Proof.
  intros Hm Ha. unfold poke. cbn [memory with_memory].
  rewrite array_get_insert; [rewrite Z.eqb_refl; reflexivity | | lia].
  rewrite Hm. lia.
Qed.

Lemma peek_poke_ne a b v s :
  wf_memory s -> 0 <= a < MEMORY_CELLS -> 0 <= b -> b <> a ->
  Array.get (memory (poke a v s)) b = Array.get (memory s) b.
Proof.
  intros Hm Ha Hb Hne. unfold poke. cbn [memory with_memory].
  rewrite array_get_insert; [|rewrite Hm; lia | lia].
  destruct (Z.eqb_spec b a); [contradiction | reflexivity].
Qed.

(** Reading back a cell just written, away from the keyboard. *)
Lemma mem_read_poke kbsr poll a w s :
  wf_memory s -> 0 <= a < MEMORY_CELLS -> a <> kbsr ->
  mem_read kbsr poll a (poke a w s) = Some (w, poke a w s).
Proof.
  intros Hm Ha Hk. unfold MEMORY_CELLS, UINT16_MAX in Ha.
  rewrite mem_read_plain by (rewrite Z.mod_small by lia; assumption).
  rewrite Z.mod_small by lia.
  rewrite peek_poke by (auto; unfold MEMORY_CELLS, UINT16_MAX; lia).
  reflexivity.
Qed.

Lemma example_poll_length i m : length (example_poll i m).2 = length m.
Proof. reflexivity. Qed.

Lemma example_regs_wf s : wf_reg (with_reg example_regs s).
Proof.
  apply wf_reg_with_reg; [reflexivity|].
  unfold example_regs. repeat constructor; unfold is_uint16; lia.
Qed.

Lemma example_regs_get s :
  get_reg 0 (with_reg example_regs s) = Some 0x8000 /\
  get_reg 1 (with_reg example_regs s) = Some 3 /\
  get_reg R_PC (with_reg example_regs s) = Some 0x3000.
Proof. repeat split. Qed.

Lemma example_machine_wf : wf_reg example_machine /\ wf_memory example_machine.
Proof.
  split; [apply example_regs_wf|].
  apply wf_memory_with_reg, zero_state_wf.
Qed.

Lemma read_image_load_3000 s :
  wf_memory s -> length (reg s) = Z.to_nat R_COUNT ->
  read_image image_at_3000 s = Some (load_3000 s).
Proof.
  intros Hmem Hlen. unfold read_image.
  change (image_words image_at_3000) with (Some [0x3000; 0x1234; 0xABCD]).
  cbn [mbind option_bind store_words].
  rewrite mem_write_total by (auto; unfold MEMORY_CELLS, UINT16_MAX; lia).
  fold (poke 0x3000 0x1234 s). cbn [mbind option_bind].
  rewrite mem_write_total
    by (try apply wf_memory_poke; auto; unfold MEMORY_CELLS, UINT16_MAX; lia).
  fold (poke (0x3000 + 1) 0xABCD (poke 0x3000 0x1234 s)).
  cbn [mbind option_bind].
  rewrite set_reg_total by (auto; unfold R_PC, R_COUNT; lia).
  reflexivity.
Qed.

Lemma load_3000_cells s :
  wf_memory s ->
  Array.get (memory (load_3000 s)) 0x3000 = Some 0x1234 /\
  Array.get (memory (load_3000 s)) 0x3001 = Some 0xABCD.
Proof.
  intros Hmem. unfold load_3000. cbv zeta. cbn [memory with_reg].
  assert (Hb : forall a, 0 <= a < 65535 -> 0 <= a < MEMORY_CELLS)
    by (unfold MEMORY_CELLS, UINT16_MAX; lia).
  split.
  - rewrite peek_poke_ne
      by (try apply wf_memory_poke; auto; first [apply Hb; lia | lia]).
    apply peek_poke; [assumption | apply Hb; lia].
  - apply (peek_poke (0x3000 + 1));
      [apply wf_memory_poke; assumption | apply Hb; lia].
Qed.

Lemma example_ldi_machine_facts s :
  wf_memory s ->
  let m := poke 0x3100 0x1234
             (poke 0x3003 0x3100
                (with_reg [0; 0; 0; 0; 0; 0; 0; 0; 0x3001; 0] s)) in
  wf_reg m /\ get_reg R_PC m = Some 0x3001 /\
  Array.get (memory m) 0x3003 = Some 0x3100 /\
  Array.get (memory m) 0x3100 = Some 0x1234.
Proof.
  intros Hm m.
  assert (Hm0 : wf_memory (with_reg [0; 0; 0; 0; 0; 0; 0; 0; 0x3001; 0] s))
    by (apply wf_memory_with_reg; assumption).
  assert (Hb : forall a, 0 <= a < 65535 -> 0 <= a < MEMORY_CELLS)
    by (unfold MEMORY_CELLS, UINT16_MAX; lia).
  split.
  { unfold m. apply wf_reg_poke, wf_reg_poke, wf_reg_with_reg; [reflexivity|].
    repeat constructor; unfold is_uint16; lia. }
  split; [reflexivity|]. split.
  - unfold m. rewrite peek_poke_ne
      by (try apply wf_memory_poke; auto; first [apply Hb; lia | lia]).
    apply peek_poke; auto. apply Hb; lia.
  - unfold m. apply peek_poke; [apply wf_memory_poke; assumption|].
    apply Hb; lia.
Qed.

End Examples.

(** ** Instances *)

(** [sign_extend] on the 5-bit field 0b10000. *)
Lemma sign_extend_fills_high_bits_witness :
  (1 <= 5 <= 16 /\ 0 <= 16 < 2 ^ 5) /\
  is_uint16 (sign_extend 16 5) /\
  Z.testbit (sign_extend 16 5) 15 = Z.testbit 16 (5 - 1).
Proof.
  assert (H1 : 1 <= 5 <= 16) by lia.
  assert (H2 : 0 <= 16 < 2 ^ 5) by (simpl; lia).
  destruct (sign_extend_fills_high_bits 16 5 H1 H2) as (Hr & _ & Hhigh & _).
  split; [split; assumption|]. split; [assumption|].
  apply Hhigh. lia.
Defined.

(** [sign_extend] on the 9-bit field 0x1FE (-2). *)
Lemma sign_extend_preserves_low_bits_witness :
  (1 <= 9 <= 16 /\ 0 <= 0x1FE < 2 ^ 9) /\
  sign_extend 0x1FE 9 mod 2 ^ 9 = 0x1FE.
Proof.
  assert (H1 : 1 <= 9 <= 16) by lia.
  assert (H2 : 0 <= 0x1FE < 2 ^ 9) by (simpl; lia).
  split; [split; assumption|].
  exact (proj1 (sign_extend_preserves_low_bits 0x1FE 9 H1 H2)).
Defined.

(** [update_flags 0] with R0 = 0x8000 sets NEGATIVE. *)
Lemma update_flags_exactly_one_flag_witness :
  (wf_reg example_machine /\ 0 <= R_R0 < R_COUNT) /\
  exists s', update_flags R_R0 example_machine = Some s' /\
             get_reg R_COND s' = Some FL_NEG.
Proof.
  assert (H1 : wf_reg example_machine) by apply example_regs_wf.
  assert (H2 : 0 <= R_R0 < R_COUNT) by (unfold R_R0, R_COUNT; lia).
  split; [split; assumption|].
  destruct (update_flags_exactly_one_flag R_R0 example_machine H1 H2)
    as (v & cond & s' & Hget & Hupd & Hcond & _ & _ & Hneg & _).
  exists s'. split; [assumption|].
  destruct (example_regs_get zero_state) as (H0 & _).
  unfold example_machine, R_R0 in Hget. rewrite H0 in Hget.
  injection Hget as <-. rewrite <- (Hneg eq_refl). assumption.
Defined.

(** [add] on the word 0x107E never leaves the register array. *)
Lemma add_register_accesses_in_bounds_witness :
  length (reg example_machine) = Z.to_nat R_COUNT /\
  is_Some (add 0x107E example_machine).
Proof.
  assert (H1 : length (reg example_machine) = Z.to_nat R_COUNT) by reflexivity.
  split; [assumption|].
  destruct (add_register_accesses_in_bounds 0x107E example_machine H1)
    as (_ & _ & _ & _ & _ & _ & _ & _ & H).
  exact H.
Defined.

(** Loading the image with origin 0x3000 and starting the loop. *)
Lemma run_starts_at_pc_start_witness :
  (length (reg zero_state) = Z.to_nat R_COUNT /\
   read_image image_at_3000 zero_state = Some loaded_3000) /\
  exists s, boot image_at_3000 zero_state = Some s /\
            running s = true /\
            get_reg R_PC s = image_origin image_at_3000 /\
            Array.get (memory s) 0x3000 = Some 0x1234 /\
            Array.get (memory s) 0x3001 = Some 0xABCD.
Proof.
  destruct zero_state_wf as [[Hlen _] Hmem].
  assert (Hload : read_image image_at_3000 zero_state = Some loaded_3000)
    by (apply read_image_load_3000; assumption).
  split; [split; assumption|].
  destruct (run_starts_at_pc_start image_at_3000 zero_state loaded_3000 Hlen Hload)
    as [(s & Hboot & Hrun & _ & _ & Hm & Horigin) _].
  exists s. split; [assumption|]. split; [assumption|].
  split; [apply Horigin; reflexivity|].
  rewrite Hm. exact (load_3000_cells zero_state Hmem).
Defined.

(** [ADD R0, R1, #-2] with R1 = 3. *)
Lemma add_instruction_semantics_witness :
  (wf_reg example_machine /\ is_uint16 0x107E /\ bits 15 12 0x107E = OP_ADD) /\
  exists s', add 0x107E example_machine = Some s' /\
             get_reg R_R0 s' = Some 1 /\ get_reg R_COND s' = Some FL_POS.
Proof.
  assert (H1 : wf_reg example_machine) by apply example_regs_wf.
  assert (H2 : is_uint16 0x107E) by (unfold is_uint16; lia).
  assert (H3 : bits 15 12 0x107E = OP_ADD) by reflexivity.
  split; [exact (conj H1 (conj H2 H3))|].
  destruct (add_instruction_semantics example_block 0x107E example_machine
              H1 H2 H3) as [_ Hex].
  exact (Hex example_machine H1 (proj1 (proj2 (example_regs_get zero_state)))).
Defined.

(** The all-zero machine has no cell for address 0xFFFF. *)
Lemma memory_array_misses_last_address_witness :
  (wf_memory zero_state /\
   length (example_poll (input zero_state) (memory zero_state)).2
   = length (memory zero_state)) /\
  mem_write 0xFFFF 0x1234 zero_state = None /\
  mem_read example_kbsr example_poll 0xFFFF zero_state = None.
Proof.
  assert (H1 : wf_memory zero_state) by apply zero_state_wf.
  assert (H2 : length (example_poll (input zero_state) (memory zero_state)).2
               = length (memory zero_state)) by apply example_poll_length.
  split; [split; assumption|].
  destruct (memory_array_misses_last_address example_kbsr example_poll
              zero_state 0x1234 H1 H2) as (_ & _ & _ & _ & Hw & Hr).
  split; assumption.
Defined.

(** A RES word at the program counter halts the loop. *)
Lemma bad_opcode_halts_witness :
  (wf_reg example_res_machine /\
   get_reg R_PC example_res_machine = Some 0x3000 /\
   mem_read example_kbsr example_poll 0x3000 example_res_machine
   = Some (0xD000, example_res_machine) /\
   is_uint16 0xD000 /\ bits 15 12 0xD000 = OP_RES) /\
  exists s',
    step example_kbsr example_poll example_block example_res_machine = Some s' /\
    running s' = false /\
    log s' = log example_res_machine ++ [BadOpcode OP_RES 0x3000].
Proof.
  assert (H1 : wf_reg example_res_machine)
    by (apply wf_reg_poke, example_regs_wf).
  assert (H2 : get_reg R_PC example_res_machine = Some 0x3000) by reflexivity.
  assert (H3 : mem_read example_kbsr example_poll 0x3000 example_res_machine
               = Some (0xD000, example_res_machine)).
  { apply mem_read_poke.
    - apply example_machine_wf.
    - unfold MEMORY_CELLS, UINT16_MAX. lia.
    - unfold example_kbsr. lia. }
  assert (H4 : is_uint16 0xD000) by (unfold is_uint16; lia).
  assert (H5 : bits 15 12 0xD000 = OP_RES) by reflexivity.
  split; [exact (conj H1 (conj H2 (conj H3 (conj H4 H5))))|].
  destruct (bad_opcode_halts example_kbsr example_poll example_block
              example_res_machine 0x3000 0xD000 example_res_machine
              H1 H2 H3 H4 (or_introl H5))
    as (s' & Hstep & Hrun & Hlog & _).
  exists s'. split; [assumption|]. split; [assumption|]. exact Hlog.
Defined.

(** An iteration at the last address, where the read leaves the array,
    and one on the machine whose next word is an ADD. *)
Lemma step_fetch_increment_dispatch_witness :
  (wf_reg example_last_pc_machine /\ wf_memory example_last_pc_machine /\
   length (example_poll (input example_last_pc_machine)
                        (memory example_last_pc_machine)).2
   = length (memory example_last_pc_machine)) /\
  (exists s1,
      post_increment_pc example_last_pc_machine = Some (0xFFFF, s1) /\
      get_reg R_PC s1 = Some 0x0000) /\
  mem_read example_kbsr example_poll 0xFFFF example_last_pc_machine = None /\
  step example_kbsr example_poll example_block example_last_pc_machine = None /\
  (exists s3,
      set_reg R_PC ((0x3000 + 1) mod 65536) example_add_machine = Some s3 /\
      step example_kbsr example_poll example_block example_add_machine
      = add 0x107E s3).
Proof.
  assert (H1 : wf_reg example_last_pc_machine).
  { apply wf_reg_with_reg; [reflexivity|].
    repeat constructor; unfold is_uint16; lia. }
  assert (H2 : wf_memory example_last_pc_machine)
    by (apply wf_memory_with_reg, zero_state_wf).
  assert (H3 : length (example_poll (input example_last_pc_machine)
                                    (memory example_last_pc_machine)).2
               = length (memory example_last_pc_machine))
    by apply example_poll_length.
  split; [exact (conj H1 (conj H2 H3))|].
  destruct (step_fetch_increment_dispatch example_kbsr example_poll
              example_block example_last_pc_machine H1 H2 H3)
    as (pc & s1 & Hpc & Hinc & _ & _ & _ & Hlast & _).
  assert (Hpc0 : get_reg R_PC example_last_pc_machine = Some 0xFFFF)
    by reflexivity.
  rewrite Hpc0 in Hpc. injection Hpc as <-.
  destruct (Hlast eq_refl) as (Hzero & _ & Hread & _ & Hstep).
  split; [exists s1; split; assumption|].
  split; [exact Hread|]. split; [exact Hstep|].
  assert (K1 : wf_reg example_add_machine)
    by (apply wf_reg_poke, example_regs_wf).
  assert (K2 : wf_memory example_add_machine)
    by (apply wf_memory_poke, example_machine_wf).
  assert (K3 : length (example_poll (input example_add_machine)
                                    (memory example_add_machine)).2
               = length (memory example_add_machine))
    by apply example_poll_length.
  destruct (step_fetch_increment_dispatch example_kbsr example_poll
              example_block example_add_machine K1 K2 K3)
    as (pc & t1 & Kpc & _ & _ & _ & Kstep & _).
  assert (Kpc0 : get_reg R_PC example_add_machine = Some 0x3000) by reflexivity.
  rewrite Kpc0 in Kpc. injection Kpc as <-.
  destruct (Kstep ltac:(discriminate)) as (w & s2 & s3 & Kread & Kset & _ & Kroute).
  assert (Kread0 : mem_read example_kbsr example_poll 0x3000 example_add_machine
                   = Some (0x107E, example_add_machine)).
  { apply mem_read_poke.
    - apply example_machine_wf.
    - unfold MEMORY_CELLS, UINT16_MAX. lia.
    - unfold example_kbsr. lia. }
  rewrite Kread0 in Kread. injection Kread as <- <-.
  exists s3. split; [exact Kset|].
  apply Kroute; [unfold is_uint16; lia | reflexivity].
Defined.

(** [LDI R2, #2] through the cells 0x3003 and 0x3100. *)
Lemma ldi_double_indirection_witness :
  (wf_reg example_ldi_machine /\
   get_reg R_PC example_ldi_machine = Some 0x3001) /\
  exists s',
    ldi example_kbsr example_poll 0xA402 example_ldi_machine = Some s' /\
    get_reg R_R2 s' = Some 0x1234 /\ get_reg R_COND s' = Some FL_POS.
Proof.
  destruct (example_ldi_machine_facts zero_state (proj2 zero_state_wf))
    as (H1 & H2 & Hc1 & Hc2).
  split; [split; assumption|].
  destruct (ldi_double_indirection example_kbsr example_poll 0xA402
              example_ldi_machine 0x3001 H1 H2) as [_ Hex].
  apply Hex.
  - unfold example_kbsr. intros E. discriminate E.
  - unfold example_kbsr. intros E. discriminate E.
  - exact Hc1.
  - exact Hc2.
Defined.

(** * Further properties of the code *)

(** ** [sign_extend] as arithmetic, and on inputs wider than the field *)

Section SignExtendMore.

(** The top bit of an [n]-bit value is set exactly from [2^(n-1)] on. *)
Lemma top_bit_threshold x n :
  1 <= n -> 0 <= x < 2 ^ n -> Z.testbit x (n - 1) = (2 ^ (n - 1) <=? x).
Proof.
  intros Hn Hx.
  assert (Hp : 0 < 2 ^ (n - 1)) by (apply Z.pow_pos_nonneg; lia).
  assert (H2 : 2 ^ n = 2 * 2 ^ (n - 1)).
  { replace n with (1 + (n - 1)) at 1 by lia.
    rewrite Z.pow_add_r by lia. reflexivity. }
  destruct (Z.leb_spec (2 ^ (n - 1)) x) as [Hge|Hlt].
  - apply Z.testbit_true; [lia|].
    replace (x / 2 ^ (n - 1)) with 1; [reflexivity|].
    apply Z.div_unique with (r := x - 2 ^ (n - 1)); lia.
  - apply Z.testbit_false; [lia|].
    rewrite Z.div_small by lia. reflexivity.
Qed.

(** Bit [i] of the result for any 16-bit input, fitting the field or
    not: the input's own bit, or-ed from [n] upwards with bit [n - 1]. *)
Lemma sign_extend_testbit_any x n i :
  1 <= n <= 16 -> 0 <= i < 16 ->
  Z.testbit (sign_extend x n) i =
  Z.testbit x i || ((n <=? i) && Z.testbit x (n - 1)).
Proof.
  intros Hn Hi. unfold sign_extend.
  rewrite truthy_shiftr_land1 by lia.
  destruct (Z.testbit x (n - 1)) eqn:Htop.
  - rewrite to_uint16_testbit, Z.lor_spec, to_int_testbit by lia.
    rewrite testbit_mask16_shiftl by lia.
    rewrite andb_true_r. reflexivity.
  - rewrite andb_false_r, orb_false_r. reflexivity.
Qed.

Lemma sign_extend_range_any x n :
  is_uint16 x -> is_uint16 (sign_extend x n).
Proof.
  intros Hx. unfold sign_extend.
  destruct (truthy _); [apply to_uint16_range | assumption].
Qed.

(** The mask [sign_extend] ors in, as a number. *)
Lemma high_mask_value n :
  0 <= n <= 16 -> Z.shiftl (Z.ones (16 - n)) n = 65536 - 2 ^ n.
Proof.
  intros Hn. rewrite Z.shiftl_mul_pow2 by lia.
  rewrite Z.ones_equiv. unfold Z.pred.
  rewrite Z.mul_add_distr_r, <- Z.pow_add_r by lia.
  replace (16 - n + n) with 16 by lia. change (2 ^ 16) with 65536. lia.
Qed.

Lemma sign_extend_negative_value x n :
  1 <= n <= 16 -> 0 <= x < 2 ^ n -> Z.testbit x (n - 1) = true ->
  sign_extend x n = x + 65536 - 2 ^ n.
Proof.
  intros Hn Hx Htop.
  assert (Hdisj : Z.land x (Z.shiftl (Z.ones (16 - n)) n) = 0).
  { apply Z.bits_inj'. intros i Hi.
    rewrite Z.land_spec, Z.bits_0.
    destruct (Z.ltb_spec i n) as [Hlt|Hge].
    - rewrite Z.shiftl_spec_low by lia. apply andb_false_r.
    - rewrite (testbit_above x n i) by lia. reflexivity. }
  replace (x + 65536 - 2 ^ n) with (x + Z.shiftl (Z.ones (16 - n)) n)
    by (rewrite high_mask_value by lia; lia).
  rewrite Z.add_nocarry_lxor, Z.lxor_lor by assumption.
  apply Z.bits_inj'. intros i Hi.
  rewrite Z.lor_spec, Z.shiftl_spec by lia.
  destruct (Z.ltb_spec i 16) as [Hlt|Hge].
  - rewrite sign_extend_testbit by lia.
    destruct (Z.ltb_spec i n) as [Hin|Hout].
    + rewrite (Z.testbit_neg_r _ (i - n)) by lia.
      rewrite orb_false_r. reflexivity.
    + rewrite Htop, Z.ones_spec_low by lia. rewrite orb_true_r. reflexivity.
  - rewrite (testbit_above (sign_extend x n) 16 i); [| lia | | lia].
    + rewrite (testbit_above x n i) by lia.
      rewrite Z.ones_spec_high by lia. reflexivity.
    + apply (sign_extend_range x n); assumption.
Qed.

End SignExtendMore.

(** X1. On an [n]-bit field [sign_extend] is two's complement widening
    as arithmetic: the result is the field's signed value modulo 2^16,
    and read back as a signed 16-bit number it is that signed value. *)
Theorem sign_extend_signed_value x n :
  1 <= n <= 16 -> 0 <= x < 2 ^ n ->
  sign_extend x n = signed_field n x mod 65536 /\
  signed16 (sign_extend x n) = signed_field n x /\
  - 2 ^ (n - 1) <= signed_field n x < 2 ^ (n - 1).
Proof.
  intros Hn Hx.
  assert (Hp : 0 < 2 ^ (n - 1)) by (apply Z.pow_pos_nonneg; lia).
  assert (H2 : 2 ^ n = 2 * 2 ^ (n - 1)).
  { replace n with (1 + (n - 1)) at 1 by lia.
    rewrite Z.pow_add_r by lia. reflexivity. }
  assert (H16 : 2 ^ n <= 65536).
  { change 65536 with (2 ^ 16). apply Z.pow_le_mono_r; lia. }
  pose proof (top_bit_threshold x n ltac:(lia) Hx) as Htop.
  unfold signed_field, signed16.
  destruct (Z.ltb_spec x (2 ^ (n - 1))) as [Hlt|Hge].
  - assert (Hse : sign_extend x n = x).
    { unfold sign_extend. rewrite truthy_shiftr_land1 by lia.
      rewrite Htop. destruct (Z.leb_spec (2 ^ (n - 1)) x); [lia | reflexivity]. }
    rewrite Hse. rewrite Z.mod_small by lia.
    destruct (Z.ltb_spec x 32768); lia.
  - assert (Hse : sign_extend x n = x + 65536 - 2 ^ n).
    { apply sign_extend_negative_value; [lia | lia |].
      rewrite Htop. apply Z.leb_le. lia. }
    rewrite Hse. split; [|split; [|lia]].
    + apply Z.mod_unique with (q := -1); lia.
    + destruct (Z.ltb_spec (x + 65536 - 2 ^ n) 32768); lia.
Qed.

(** X2. [sign_extend] does not mask its input.  For any 16-bit [x],
    wider than the field or not, every bit of [x] survives and the bits
    from [n] upwards are or-ed with bit [n - 1]: the result is [x] or-ed
    with the sign extension of its low [n] bits, and [x] itself when bit
    [n - 1] is clear. *)
Theorem sign_extend_keeps_bits_above_field x n :
  1 <= n <= 16 -> is_uint16 x ->
  is_uint16 (sign_extend x n) /\
  (forall i, 0 <= i < 16 ->
     Z.testbit (sign_extend x n) i =
     Z.testbit x i || ((n <=? i) && Z.testbit x (n - 1))) /\
  (Z.testbit x (n - 1) = false -> sign_extend x n = x) /\
  sign_extend x n = Z.lor x (sign_extend (x mod 2 ^ n) n).
Proof.
  intros Hn Hx.
  assert (Hr : is_uint16 (sign_extend x n)) by (apply sign_extend_range_any; exact Hx).
  assert (Hm : 0 <= x mod 2 ^ n < 2 ^ n).
  { apply Z.mod_pos_bound. apply Z.pow_pos_nonneg; lia. }
  split; [exact Hr|]. split.
  { intros i Hi. apply sign_extend_testbit_any; assumption. }
  split.
  { intros Htop. unfold sign_extend.
    rewrite truthy_shiftr_land1 by lia. rewrite Htop. reflexivity. }
  apply Z.bits_inj'. intros i Hi. rewrite Z.lor_spec.
  destruct (Z.ltb_spec i 16) as [Hlt|Hge].
  - rewrite sign_extend_testbit_any by lia.
    rewrite sign_extend_testbit by lia.
    destruct (Z.ltb_spec i n) as [Hin|Hout].
    + rewrite Z.mod_pow2_bits_low by lia.
      replace (n <=? i) with false by (symmetry; apply Z.leb_gt; lia).
      destruct (Z.testbit x i); reflexivity.
    + rewrite Z.mod_pow2_bits_low by lia.
      replace (n <=? i) with true by (symmetry; apply Z.leb_le; lia).
      reflexivity.
  - rewrite (testbit_above (sign_extend x n) 16 i) by (auto; lia).
    rewrite (testbit_above x 16 i) by (auto; lia).
    rewrite (testbit_above (sign_extend (x mod 2 ^ n) n) 16 i); [reflexivity| lia | | lia].
    apply (sign_extend_range (x mod 2 ^ n) n); assumption.
Qed.

(** X3. [sign_extend] is idempotent: extending a value that is already
    extended changes nothing. *)
Theorem sign_extend_idempotent x n :
  1 <= n <= 16 -> is_uint16 x ->
  sign_extend (sign_extend x n) n = sign_extend x n.
Proof.
  intros Hn Hx.
  assert (Hr : is_uint16 (sign_extend x n)) by (apply sign_extend_range_any; exact Hx).
  assert (Hrr : is_uint16 (sign_extend (sign_extend x n) n))
    by (apply sign_extend_range_any; exact Hr).
  apply Z.bits_inj'. intros i Hi.
  destruct (Z.ltb_spec i 16) as [Hlt|Hge].
  - rewrite (sign_extend_testbit_any (sign_extend x n)) by lia.
    rewrite (sign_extend_testbit_any x n (n - 1)) by lia.
    rewrite (sign_extend_testbit_any x n i) by lia.
    replace (n <=? n - 1) with false by (symmetry; apply Z.leb_gt; lia).
    destruct (Z.testbit x i), (n <=? i), (Z.testbit x (n - 1)); reflexivity.
  - rewrite (testbit_above _ 16 i) by (auto; lia).
    rewrite (testbit_above _ 16 i) by (auto; lia). reflexivity.
Qed.

(** The 5-bit field 0b11110 is -2. *)
Lemma sign_extend_signed_value_witness :
  (1 <= 5 <= 16 /\ 0 <= 30 < 2 ^ 5) /\
  sign_extend 30 5 = (-2) mod 65536 /\ signed16 (sign_extend 30 5) = -2.
Proof.
  assert (H1 : 1 <= 5 <= 16) by lia.
  assert (H2 : 0 <= 30 < 2 ^ 5) by (simpl; lia).
  split; [split; assumption|].
  destruct (sign_extend_signed_value 30 5 H1 H2) as (Hv & Hs & _).
  split; [exact Hv | exact Hs].
Defined.

(** An unmasked ADD word, 0x107E, given to [sign_extend _ 5]. *)
Lemma sign_extend_keeps_bits_above_field_witness :
  (1 <= 5 <= 16 /\ is_uint16 0x107E) /\
  sign_extend 0x107E 5 = Z.lor 0x107E (sign_extend (0x107E mod 2 ^ 5) 5).
Proof.
  assert (H1 : 1 <= 5 <= 16) by lia.
  assert (H2 : is_uint16 0x107E) by (unfold is_uint16; lia).
  split; [split; assumption|].
  destruct (sign_extend_keeps_bits_above_field 0x107E 5 H1 H2) as (_ & _ & _ & H).
  exact H.
Defined.

Lemma sign_extend_idempotent_witness :
  (1 <= 9 <= 16 /\ is_uint16 0x1FE) /\
  sign_extend (sign_extend 0x1FE 9) 9 = sign_extend 0x1FE 9.
Proof.
  assert (H1 : 1 <= 9 <= 16) by lia.
  assert (H2 : is_uint16 0x1FE) by (unfold is_uint16; lia).
  split; [split; assumption|].
  exact (sign_extend_idempotent 0x1FE 9 H1 H2).
Defined.

(** ** The flags and the registers under [update_flags] and [add] *)

Section FlagsAndAddMore.

Lemma flag_of_flag_of v : flag_of (flag_of v) = FL_POS.
Proof.
  unfold flag_of at 2.
  destruct (v =? 0); [|destruct (Z.testbit v 15)]; reflexivity.
Qed.

Lemma with_reg_insert_twice i x y s :
  with_reg (<[i := x]> (reg (with_reg (<[i := y]> (reg s)) s)))
           (with_reg (<[i := y]> (reg s)) s)
  = with_reg (<[i := x]> (reg s)) s.
Proof.
  unfold with_reg. cbn [reg memory running input log].
  rewrite list_insert_insert_eq. reflexivity.
Qed.

(** Bit 15 of a 16-bit value is set exactly from 32768 on. *)
Lemma bit15_threshold v : is_uint16 v -> Z.testbit v 15 = (32768 <=? v).
Proof.
  intros Hv. apply (top_bit_threshold v 16); [lia | exact Hv].
Qed.

(** The flag of a 16-bit value is the sign of its signed reading. *)
Lemma flag_of_sign v :
  is_uint16 v ->
  (flag_of v = FL_NEG <-> signed16 v < 0) /\
  (flag_of v = FL_ZRO <-> signed16 v = 0) /\
  (flag_of v = FL_POS <-> 0 < signed16 v).
Proof.
  intros Hv. unfold flag_of, signed16. rewrite bit15_threshold by assumption.
  unfold is_uint16 in Hv.
  change FL_NEG with 4. change FL_ZRO with 2. change FL_POS with 1.
  destruct (Z.eqb_spec v 0); destruct (Z.leb_spec 32768 v);
    destruct (Z.ltb_spec v 32768); lia.
Qed.

(** The fields of the two ADD layouts. *)
Lemma add_imm_word_fields dr sr1 f :
  0 <= dr < 8 -> 0 <= sr1 < 8 -> 0 <= f < 32 ->
  let w := add_imm_word dr sr1 f in
  is_uint16 w /\ bits 15 12 w = OP_ADD /\ bits 11 9 w = dr /\
  bits 8 6 w = sr1 /\ bits 5 5 w = 1 /\ bits 4 0 w = f.
Proof.
  intros Hdr Hsr Hf w. unfold w, add_imm_word, bits, is_uint16, OP_ADD.
  change (2 ^ (15 - 12 + 1)) with 16. change (2 ^ (11 - 9 + 1)) with 8.
  change (2 ^ (8 - 6 + 1)) with 8. change (2 ^ (5 - 5 + 1)) with 2.
  change (2 ^ (4 - 0 + 1)) with 32.
  change (2 ^ 12) with 4096. change (2 ^ 9) with 512. change (2 ^ 6) with 64.
  change (2 ^ 5) with 32. change (2 ^ 0) with 1.
  repeat split; Z.div_mod_to_equations; lia.
Qed.

Lemma add_reg_word_fields dr sr1 sr2 :
  0 <= dr < 8 -> 0 <= sr1 < 8 -> 0 <= sr2 < 8 ->
  let w := add_reg_word dr sr1 sr2 in
  is_uint16 w /\ bits 15 12 w = OP_ADD /\ bits 11 9 w = dr /\
  bits 8 6 w = sr1 /\ bits 5 5 w = 0 /\ bits 2 0 w = sr2.
Proof.
  intros Hdr Hsr1 Hsr2 w. unfold w, add_reg_word, bits, is_uint16, OP_ADD.
  change (2 ^ (15 - 12 + 1)) with 16. change (2 ^ (11 - 9 + 1)) with 8.
  change (2 ^ (8 - 6 + 1)) with 8. change (2 ^ (5 - 5 + 1)) with 2.
  change (2 ^ (2 - 0 + 1)) with 8.
  change (2 ^ 12) with 4096. change (2 ^ 9) with 512. change (2 ^ 6) with 64.
  change (2 ^ 5) with 32. change (2 ^ 0) with 1.
  repeat split; Z.div_mod_to_equations; lia.
Qed.

(** A 5-bit immediate holding [k], [-16 <= k <= 15], extends to [k]
    modulo 2^16. *)
Lemma sign_extend_imm5 k :
  -16 <= k <= 15 -> sign_extend (k mod 32) 5 = k mod 65536.
Proof.
  intros Hk.
  assert (Hm : 0 <= k mod 32 < 2 ^ 5) by (apply Z.mod_pos_bound; lia).
  pose proof (top_bit_threshold (k mod 32) 5 ltac:(lia) Hm) as Htop.
  change (2 ^ (5 - 1)) with 16 in Htop. change (2 ^ 5) with 32 in Hm.
  destruct (Z.leb_spec 16 (k mod 32)) as [Hge|Hlt].
  - rewrite sign_extend_negative_value by (auto; lia).
    change (2 ^ 5) with 32. Z.div_mod_to_equations. lia.
  - unfold sign_extend. rewrite truthy_shiftr_land1 by lia.
    change (5 - 1) with 4 in *. rewrite Htop.
    Z.div_mod_to_equations. lia.
Qed.

(** [add] on the immediate layout: the signed immediate is added modulo
    2^16 and the flags follow the sum. *)
Lemma add_imm_effect dr sr1 k s a :
  wf_reg s -> 0 <= dr < 8 -> 0 <= sr1 < 8 -> -16 <= k <= 15 ->
  get_reg sr1 s = Some a ->
  exists s',
    add (add_imm_word dr sr1 (k mod 32)) s = Some s' /\
    get_reg dr s' = Some ((a + k) mod 65536) /\
    get_reg R_COND s' = Some (flag_of ((a + k) mod 65536)) /\
    (forall j, 0 <= j -> j <> dr -> j <> R_COND -> get_reg j s' = get_reg j s) /\
    memory s' = memory s /\ running s' = running s /\ wf_reg s'.
Proof.
  intros Hwf Hdr Hsr Hk Ha.
  assert (Hf : 0 <= k mod 32 < 32) by (apply Z.mod_pos_bound; lia).
  destruct (add_imm_word_fields dr sr1 (k mod 32) Hdr Hsr Hf)
    as (_ & _ & Fdr & Fsr & Fm & Fi).
  destruct (add_effect (add_imm_word dr sr1 (k mod 32)) s Hwf)
    as (a' & operand & s' & Ha' & Himm & _ & Hadd & Hd & Hc & Hoth
        & Hmem & Hrun & _ & _ & Hwf').
  rewrite Fsr, Ha in Ha'. injection Ha' as <-.
  rewrite (Himm Fm), Fi, sign_extend_imm5 in Hd, Hc by assumption.
  rewrite Zplus_mod_idemp_r in Hd, Hc. rewrite Fdr in Hd, Hoth.
  exists s'. repeat (split; [assumption|]). assumption.
Qed.

End FlagsAndAddMore.

(** X4. [update_flags] is idempotent on every register but the flags
    register: a second call with the same index leaves the state as the
    first made it.  On the flags register itself it is not: whatever a
    call has left there is a non-zero value with bit 15 clear, so
    [update_flags R_COND] then sets POSITIVE. *)
Theorem update_flags_idempotent r s :
  wf_reg s -> 0 <= r < R_COUNT ->
  exists s1,
    update_flags r s = Some s1 /\
    (r <> R_COND -> update_flags r s1 = Some s1) /\
    (exists s2, update_flags R_COND s1 = Some s2 /\
                get_reg R_COND s2 = Some FL_POS).
Proof.
  intros Hwf Hr. pose proof Hwf as [Hlen _].
  assert (Hc : 0 <= R_COND < R_COUNT) by (unfold R_COND, R_COUNT; lia).
  destruct (get_reg_total s r Hwf Hr) as [v [Hget Hv]].
  set (s1 := with_reg (<[Z.to_nat R_COND := flag_of v]> (reg s)) s).
  assert (Hwf1 : wf_reg s1)
    by (apply wf_reg_insert; [assumption | apply flag_of_is_uint16]).
  pose proof Hwf1 as [Hlen1 _].
  exists s1. split; [apply update_flags_eq; assumption|]. split.
  - intros Hne.
    assert (Hget1 : get_reg r s1 = Some v).
    { unfold s1. rewrite get_reg_with_reg_insert by (auto; lia).
      destruct (Z.eqb_spec r R_COND); [contradiction | assumption]. }
    rewrite (update_flags_eq s1 r v Hlen1 Hget1 Hv).
    unfold s1. rewrite with_reg_insert_twice. reflexivity.
  - assert (Hget1 : get_reg R_COND s1 = Some (flag_of v)).
    { unfold s1. rewrite get_reg_with_reg_insert by (auto; lia).
      rewrite Z.eqb_refl. reflexivity. }
    eexists. split.
    + apply (update_flags_eq s1 R_COND (flag_of v) Hlen1 Hget1).
      apply flag_of_is_uint16.
    + rewrite get_reg_with_reg_insert by (auto; lia).
      rewrite Z.eqb_refl, flag_of_flag_of. reflexivity.
Qed.

(** X5. Whatever the instruction word, [add] keeps the machine well
    formed and touches nothing but one general register and the flags:
    it succeeds, the registers stay 16-bit values, the program counter,
    the memory, the loop flag and the streams are unchanged, and the
    flags register ends holding exactly one flag. *)
Theorem add_keeps_machine_invariants instr s :
  wf_reg s ->
  exists s' cond,
    add instr s = Some s' /\
    wf_reg s' /\
    get_reg R_PC s' = get_reg R_PC s /\
    get_reg R_COND s' = Some cond /\ single_flag cond /\
    memory s' = memory s /\ running s' = running s /\
    input s' = input s /\ log s' = log s.
Proof.
  intros Hwf.
  destruct (add_effect instr s Hwf)
    as (a & operand & s' & _ & _ & _ & Hadd & _ & Hcond & Hoth
        & Hmem & Hrun & Hin & Hlog & Hwf').
  pose proof (reg_field_range 11 9 instr eq_refl) as Hdr.
  exists s', (flag_of ((a + operand) mod 65536)).
  split; [assumption|]. split; [assumption|]. split.
  { apply Hoth; unfold R_PC, R_COND; lia. }
  split; [assumption|]. split; [apply flag_of_single|].
  repeat (split; [assumption|]). assumption.
Qed.

(** X6. [add] reads only its own fields.  The opcode bits do not
    matter to it (adding any multiple of 4096 to the word changes
    nothing), and in register mode neither do bits [4:3]. *)
Theorem add_ignores_unused_bits instr s :
  (forall k, add (instr + 4096 * k) s = add instr s) /\
  (bits 5 5 instr = 0 -> bits 4 3 instr = 0 ->
   forall u, 0 <= u < 4 -> add (instr + 8 * u) s = add instr s).
Proof.
  split.
  - intros k. unfold add.
    rewrite !add_dr_bits, !add_sr1_bits, !add_mode_bits, !add_sr2_bits,
      !add_imm5_bits.
    assert (E1 : bits 11 9 (instr + 4096 * k) = bits 11 9 instr).
    { unfold bits. change (2 ^ (11 - 9 + 1)) with 8. change (2 ^ 9) with 512.
      Z.div_mod_to_equations. lia. }
    assert (E2 : bits 8 6 (instr + 4096 * k) = bits 8 6 instr).
    { unfold bits. change (2 ^ (8 - 6 + 1)) with 8. change (2 ^ 6) with 64.
      Z.div_mod_to_equations. lia. }
    assert (E3 : bits 5 5 (instr + 4096 * k) = bits 5 5 instr).
    { unfold bits. change (2 ^ (5 - 5 + 1)) with 2. change (2 ^ 5) with 32.
      Z.div_mod_to_equations. lia. }
    assert (E4 : bits 4 0 (instr + 4096 * k) = bits 4 0 instr).
    { unfold bits. change (2 ^ (4 - 0 + 1)) with 32. change (2 ^ 0) with 1.
      Z.div_mod_to_equations. lia. }
    assert (E5 : bits 2 0 (instr + 4096 * k) = bits 2 0 instr).
    { unfold bits. change (2 ^ (2 - 0 + 1)) with 8. change (2 ^ 0) with 1.
      Z.div_mod_to_equations. lia. }
    rewrite E1, E2, E3, E4, E5. reflexivity.
  - intros Hmode H43 u Hu. unfold add.
    rewrite !add_dr_bits, !add_sr1_bits, !add_mode_bits, !add_sr2_bits,
      !add_imm5_bits.
    assert (E : bits 11 9 (instr + 8 * u) = bits 11 9 instr /\
                bits 8 6 (instr + 8 * u) = bits 8 6 instr /\
                bits 5 5 (instr + 8 * u) = 0 /\
                bits 2 0 (instr + 8 * u) = bits 2 0 instr).
    { revert Hmode H43. unfold bits.
      change (2 ^ (11 - 9 + 1)) with 8. change (2 ^ (8 - 6 + 1)) with 8.
      change (2 ^ (5 - 5 + 1)) with 2. change (2 ^ (4 - 3 + 1)) with 4.
      change (2 ^ (2 - 0 + 1)) with 8.
      change (2 ^ 9) with 512. change (2 ^ 6) with 64. change (2 ^ 5) with 32.
      change (2 ^ 3) with 8. change (2 ^ 0) with 1.
      intros Hmode H43. repeat split; Z.div_mod_to_equations; lia. }
    destruct E as (E1 & E2 & E3 & E5).
    rewrite E1, E2, E3, E5, Hmode. reflexivity.
Qed.

(** X7. In register mode ADD is commutative: swapping the two source
    registers in the word gives the same resulting state. *)
Theorem add_register_mode_commutes dr a b s :
  0 <= dr < 8 -> 0 <= a < 8 -> 0 <= b < 8 ->
  add (add_reg_word dr a b) s = add (add_reg_word dr b a) s.
Proof.
  intros Hdr Ha Hb.
  destruct (add_reg_word_fields dr a b Hdr Ha Hb) as (_ & _ & F1 & F2 & F3 & F4).
  destruct (add_reg_word_fields dr b a Hdr Hb Ha) as (_ & _ & G1 & G2 & G3 & G4).
  unfold add.
  rewrite !add_dr_bits, !add_sr1_bits, !add_mode_bits, !add_sr2_bits.
  rewrite F1, F2, F3, F4, G1, G2, G3, G4.
  change (truthy 0) with false. cbv iota.
  destruct (get_reg a s) as [x|], (get_reg b s) as [y|];
    cbn [mbind option_bind]; try reflexivity.
  rewrite (Z.add_comm x y). reflexivity.
Qed.

(** X8. Built as in the comment above [add], the two ADD words do what
    the layout says: the immediate form puts [reg[sr1] + k] modulo 2^16
    in [dr] for the signed immediate [-16 <= k <= 15] stored in its low
    five bits, the register form puts [reg[sr1] + reg[sr2]] modulo 2^16
    there; both are 16-bit words with opcode ADD. *)
Theorem add_words_compute_sums dr sr1 s a :
  wf_reg s -> 0 <= dr < 8 -> 0 <= sr1 < 8 -> get_reg sr1 s = Some a ->
  (forall k, -16 <= k <= 15 ->
     is_uint16 (add_imm_word dr sr1 (k mod 32)) /\
     bits 15 12 (add_imm_word dr sr1 (k mod 32)) = OP_ADD /\
     exists s',
       add (add_imm_word dr sr1 (k mod 32)) s = Some s' /\
       get_reg dr s' = Some ((a + k) mod 65536) /\
       get_reg R_COND s' = Some (flag_of ((a + k) mod 65536))) /\
  (forall sr2 b, 0 <= sr2 < 8 -> get_reg sr2 s = Some b ->
     is_uint16 (add_reg_word dr sr1 sr2) /\
     bits 15 12 (add_reg_word dr sr1 sr2) = OP_ADD /\
     exists s',
       add (add_reg_word dr sr1 sr2) s = Some s' /\
       get_reg dr s' = Some ((a + b) mod 65536) /\
       get_reg R_COND s' = Some (flag_of ((a + b) mod 65536))).
Proof.
  intros Hwf Hdr Hsr Ha. split.
  - intros k Hk.
    assert (Hf : 0 <= k mod 32 < 32) by (apply Z.mod_pos_bound; lia).
    destruct (add_imm_word_fields dr sr1 (k mod 32) Hdr Hsr Hf)
      as (Hw & Hop & _).
    split; [exact Hw|]. split; [exact Hop|].
    destruct (add_imm_effect dr sr1 k s a Hwf Hdr Hsr Hk Ha)
      as (s' & Hadd & Hd & Hc & _).
    exists s'. split; [assumption|]. split; assumption.
  - intros sr2 b Hsr2 Hb.
    destruct (add_reg_word_fields dr sr1 sr2 Hdr Hsr Hsr2)
      as (Hw & Hop & Fdr & Fsr & Fm & F2).
    split; [exact Hw|]. split; [exact Hop|].
    destruct (add_effect (add_reg_word dr sr1 sr2) s Hwf)
      as (a' & operand & s' & Ha' & _ & Hreg & Hadd & Hd & Hc & _).
    rewrite Fsr, Ha in Ha'. injection Ha' as <-.
    assert (Hop2 : get_reg sr2 s = Some operand).
    { rewrite <- F2. apply Hreg. rewrite Fm. discriminate. }
    rewrite Hb in Hop2. injection Hop2 as <-.
    rewrite Fdr in Hd. exists s'. split; [assumption|]. split; assumption.
Qed.

(** X9. Adding an immediate to a register and then adding its opposite
    brings every register back: after [ADD r, r, #k] and
    [ADD r, r, #-k], for [-15 <= k <= 15], the general registers and the
    program counter hold what they held before, and the flags describe
    the value of [r]. *)
Theorem add_immediate_round_trip r k s v :
  wf_reg s -> 0 <= r < 8 -> -15 <= k <= 15 -> get_reg r s = Some v ->
  exists s1 s2,
    add (add_imm_word r r (k mod 32)) s = Some s1 /\
    get_reg r s1 = Some ((v + k) mod 65536) /\
    add (add_imm_word r r ((- k) mod 32)) s1 = Some s2 /\
    get_reg r s2 = Some v /\
    get_reg R_COND s2 = Some (flag_of v) /\
    (forall j, 0 <= j -> j <> R_COND -> get_reg j s2 = get_reg j s) /\
    memory s2 = memory s.
Proof.
  intros Hwf Hr Hk Hv.
  assert (Hvu : is_uint16 v).
  { destruct (get_reg_total s r Hwf) as [x [Hx Hxu]];
      [unfold R_COUNT; lia | congruence]. }
  destruct (add_imm_effect r r k s v Hwf Hr Hr ltac:(lia) Hv)
    as (s1 & Hadd1 & Hd1 & _ & Hoth1 & Hmem1 & _ & Hwf1).
  destruct (add_imm_effect r r (- k) s1 _ Hwf1 Hr Hr ltac:(lia) Hd1)
    as (s2 & Hadd2 & Hd2 & Hc2 & Hoth2 & Hmem2 & _).
  assert (Hback : ((v + k) mod 65536 + - k) mod 65536 = v).
  { rewrite Zplus_mod_idemp_l. replace (v + k + - k) with v by lia.
    apply Z.mod_small. exact Hvu. }
  rewrite Hback in Hd2, Hc2.
  exists s1, s2. repeat (split; [assumption|]). split.
  - intros j Hj Hjc. destruct (Z.eq_dec j r) as [->|Hjr].
    + congruence.
    + rewrite Hoth2, Hoth1 by assumption. reflexivity.
  - congruence.
Qed.

(** X10. In register mode ADD is two's complement addition.  Reading
    the registers as signed numbers, the destination receives the signed
    sum when it lies in [-32768, 32767] and the sum wrapped by 65536
    otherwise, no trap being raised; the flag is NEGATIVE, ZERO or
    POSITIVE as the signed result is below, at or above zero. *)
Theorem add_register_mode_signed instr s :
  wf_reg s -> bits 5 5 instr = 0 ->
  exists a b v cond s',
    get_reg (bits 8 6 instr) s = Some a /\
    get_reg (bits 2 0 instr) s = Some b /\
    add instr s = Some s' /\
    get_reg (bits 11 9 instr) s' = Some v /\
    get_reg R_COND s' = Some cond /\
    (-32768 <= signed16 a + signed16 b < 32768 ->
       signed16 v = signed16 a + signed16 b) /\
    (32768 <= signed16 a + signed16 b ->
       signed16 v = signed16 a + signed16 b - 65536) /\
    (signed16 a + signed16 b < -32768 ->
       signed16 v = signed16 a + signed16 b + 65536) /\
    (cond = FL_NEG <-> signed16 v < 0) /\
    (cond = FL_ZRO <-> signed16 v = 0) /\
    (cond = FL_POS <-> 0 < signed16 v).
Proof.
  intros Hwf Hmode.
  pose proof (reg_field_range 8 6 instr eq_refl) as Hsr1.
  pose proof (reg_field_range 2 0 instr eq_refl) as Hsr2.
  destruct (get_reg_total s (bits 8 6 instr) Hwf) as [a [Ha Hau]];
    [unfold R_COUNT; lia|].
  destruct (get_reg_total s (bits 2 0 instr) Hwf) as [b [Hb Hbu]];
    [unfold R_COUNT; lia|].
  destruct (add_effect instr s Hwf)
    as (a' & operand & s' & Ha' & _ & Hreg & Hadd & Hd & Hc & _).
  rewrite Ha in Ha'. injection Ha' as <-.
  assert (Hop : get_reg (bits 2 0 instr) s = Some operand)
    by (apply Hreg; rewrite Hmode; discriminate).
  rewrite Hb in Hop. injection Hop as <-.
  exists a, b, ((a + b) mod 65536), (flag_of ((a + b) mod 65536)), s'.
  repeat (split; [assumption|]).
  pose proof (to_uint16_range (a + b)) as Hv. unfold to_uint16 in Hv.
  destruct (flag_of_sign _ Hv) as (Hneg & Hzro & Hpos).
  assert (Hsum : (a + b) mod 65536 = a + b \/ (a + b) mod 65536 = a + b - 65536).
  { unfold is_uint16 in *. Z.div_mod_to_equations. lia. }
  unfold is_uint16 in *.
  split; [|split; [|split; [|split; [exact Hneg | split; [exact Hzro | exact Hpos]]]]];
    unfold signed16;
    destruct (Z.ltb_spec a 32768), (Z.ltb_spec b 32768),
      (Z.ltb_spec ((a + b) mod 65536) 32768); lia.
Qed.

(** ** The loop on every word, and on an ADD *)

Section LoopMore.

Context (MR_KBSR : Z) (kbd_poll : list Z -> list Z -> list Z * list Z).
Context (block : Z -> Z -> state -> option state).

Local Abbreviation mem_read := (VM.mem_read MR_KBSR kbd_poll).
Local Abbreviation dispatch := (VM.dispatch block).
Local Abbreviation step := (VM.step MR_KBSR kbd_poll block).
Local Abbreviation run := (VM.run MR_KBSR kbd_poll block).

Lemma opcode_range w : is_uint16 w -> 0 <= Z.shiftr w 12 <= 15.
Proof.
  intros Hw. rewrite decode_bits by assumption.
  pose proof (bits_range 15 12 w ltac:(lia)) as H.
  change (2 ^ (15 - 12 + 1)) with 16 in H. lia.
Qed.

(** X11. Every 16-bit word reaches exactly one case of the [switch]:
    [instr >> 12] is one of the sixteen enumerated opcodes, so the
    [default] label is never reached on its own; the last branch is
    taken for RES and RTI and for nothing else, ADD goes to [add], and
    each of the thirteen other opcodes to its own block. *)
Theorem decode_reaches_one_case w s :
  is_uint16 w ->
  0 <= Z.shiftr w 12 <= 15 /\
  (has_handler (Z.shiftr w 12) = false <->
   Z.shiftr w 12 = OP_RES \/ Z.shiftr w 12 = OP_RTI) /\
  (Z.shiftr w 12 = OP_ADD -> dispatch (Z.shiftr w 12) w s = add w s) /\
  (has_handler (Z.shiftr w 12) = true -> Z.shiftr w 12 <> OP_ADD ->
   dispatch (Z.shiftr w 12) w s = block (Z.shiftr w 12) w s) /\
  (Z.shiftr w 12 = OP_RES \/ Z.shiftr w 12 = OP_RTI ->
   dispatch (Z.shiftr w 12) w s = bad_opcode (Z.shiftr w 12) s).
Proof.
  intros Hw. pose proof (opcode_range w Hw) as Hop.
  remember (Z.shiftr w 12) as op eqn:Eop. clear Eop.
  split; [exact Hop|]. split.
  { unfold has_handler, OP_RES, OP_RTI.
    destruct (Z.leb_spec 0 op), (Z.leb_spec op 15),
      (Z.eqb_spec op 13), (Z.eqb_spec op 8); simpl;
      split; intros Hx; try lia; try discriminate Hx; auto. }
  split.
  { intros ->. reflexivity. }
  split.
  - assert (Hcases : op = 0 \/ op = 1 \/ op = 2 \/ op = 3 \/ op = 4 \/ op = 5 \/
                     op = 6 \/ op = 7 \/ op = 8 \/ op = 9 \/ op = 10 \/
                     op = 11 \/ op = 12 \/ op = 13 \/ op = 14 \/ op = 15) by lia.
    intros Hh Hne.
    repeat (destruct Hcases as [E|Hcases];
            [rewrite E in *;
             first [reflexivity
                   | discriminate Hh
                   | exfalso; apply Hne; reflexivity]|]).
    rewrite Hcases in *. reflexivity.
  - intros [-> | ->]; apply dispatch_no_handler; reflexivity.
Qed.

(** X12. A whole iteration on an ADD word: the program counter moves
    to the next address, [dr] receives the sum, the flags follow it,
    every other register is as before, the loop stays in the state it
    was in (an ADD never halts the machine) and, when it is running,
    goes on from the new state. *)
Theorem add_step s pc w s2 :
  wf_reg s -> get_reg R_PC s = Some pc ->
  mem_read pc s = Some (w, s2) -> is_uint16 w ->
  bits 15 12 w = OP_ADD ->
  exists a operand s',
    get_reg (bits 8 6 w) s = Some a /\
    (bits 5 5 w = 1 -> operand = sign_extend (bits 4 0 w) 5) /\
    (bits 5 5 w <> 1 -> get_reg (bits 2 0 w) s = Some operand) /\
    step s = Some s' /\
    get_reg R_PC s' = Some ((pc + 1) mod 65536) /\
    get_reg (bits 11 9 w) s' = Some ((a + operand) mod 65536) /\
    get_reg R_COND s' = Some (flag_of ((a + operand) mod 65536)) /\
    (forall j, 0 <= j -> j <> bits 11 9 w -> j <> R_COND -> j <> R_PC ->
       get_reg j s' = get_reg j s) /\
    memory s' = memory s2 /\ running s' = running s /\ log s' = log s /\
    wf_reg s' /\
    (forall n, running s = true -> run (S n) s = run n s').
Proof.
  intros Hwf Hpc Hread Hw Hop. pose proof Hwf as [Hlen Hall].
  destruct (mem_read_inv _ _ _ _ _ _ Hread) as (Hreg2 & Hrun2 & Hlog2 & _).
  set (s3 := with_reg (<[Z.to_nat R_PC := (pc + 1) mod 65536]> (reg s2)) s2).
  assert (Hstep : step s = add w s3).
  { rewrite (step_eq _ _ _ s pc w s2 Hlen Hpc Hread Hw), Hop.
    unfold VM.dispatch. rewrite Z.eqb_refl. reflexivity. }
  assert (Hwf2 : wf_reg s2) by (apply (wf_reg_ext s); assumption).
  assert (Hwf3 : wf_reg s3) by (apply wf_reg_insert; [assumption | apply to_uint16_range]).
  assert (Hget3 : forall j, 0 <= j ->
            get_reg j s3 = if j =? R_PC then Some ((pc + 1) mod 65536)
                           else get_reg j s).
  { intros j Hj. unfold s3, get_reg. cbn [reg with_reg]. rewrite Hreg2.
    apply array_get_insert; [|assumption].
    apply reg_count_bounds; [assumption | unfold R_PC, R_COUNT; lia]. }
  pose proof (reg_field_range 11 9 w eq_refl) as Hdr.
  pose proof (reg_field_range 8 6 w eq_refl) as Hsr1.
  pose proof (reg_field_range 2 0 w eq_refl) as Hsr2.
  destruct (add_effect w s3 Hwf3)
    as (a & operand & s' & Ha & Himm & Hreg & Hadd & Hd & Hc & Hoth
        & Hmem & Hrun & _ & Hlog & Hwf').
  rewrite Hget3 in Ha by lia.
  destruct (Z.eqb_spec (bits 8 6 w) R_PC) as [E|_]; [unfold R_PC in E; lia|].
  exists a, operand, s'.
  split; [assumption|]. split; [assumption|]. split.
  { intros Hm. specialize (Hreg Hm). rewrite Hget3 in Hreg by lia.
    destruct (Z.eqb_spec (bits 2 0 w) R_PC) as [E|_];
      [unfold R_PC in E; lia | assumption]. }
  assert (Hs' : step s = Some s') by (rewrite Hstep; assumption).
  split; [assumption|]. split.
  { rewrite Hoth by (unfold R_PC, R_COND; lia).
    rewrite Hget3 by (unfold R_PC; lia). rewrite Z.eqb_refl. reflexivity. }
  split; [assumption|]. split; [assumption|]. split.
  { intros j Hj Hjd Hjc Hjp. rewrite Hoth by assumption.
    rewrite Hget3 by assumption.
    destruct (Z.eqb_spec j R_PC); [contradiction | reflexivity]. }
  split; [rewrite Hmem; reflexivity|].
  split; [rewrite Hrun; exact Hrun2|].
  split; [rewrite Hlog; exact Hlog2|].
  split; [assumption|].
  intros n Hr. cbn [VM.run]. rewrite Hr, Hs'. reflexivity.
Qed.

(** An iteration on [ADD r, r, #k] read at the program counter. *)
Lemma step_add_immediate s pc r k v :
  wf_reg s -> get_reg R_PC s = Some pc -> pc + 1 <= 65535 ->
  0 <= r < 8 -> -16 <= k <= 15 -> get_reg r s = Some v ->
  mem_read pc s = Some (add_imm_word r r (k mod 32), s) ->
  exists s',
    step s = Some s' /\
    get_reg R_PC s' = Some (pc + 1) /\
    get_reg r s' = Some ((v + k) mod 65536) /\
    get_reg R_COND s' = Some (flag_of ((v + k) mod 65536)) /\
    (forall j, 0 <= j -> j <> r -> j <> R_COND -> j <> R_PC ->
       get_reg j s' = get_reg j s) /\
    memory s' = memory s /\ running s' = running s /\ wf_reg s'.
Proof.
  intros Hwf Hpc Hend Hr Hk Hv Hread. pose proof Hwf as [Hlen _].
  assert (Hpcu : is_uint16 pc).
  { destruct (get_reg_total s R_PC Hwf) as [x [Hx Hxu]];
      [unfold R_PC, R_COUNT; lia | congruence]. }
  assert (Hf : 0 <= k mod 32 < 32) by (apply Z.mod_pos_bound; lia).
  destruct (add_imm_word_fields r r (k mod 32) Hr Hr Hf) as (Hw & Hop & _).
  assert (Hnext : (pc + 1) mod 65536 = pc + 1).
  { apply Z.mod_small. unfold is_uint16 in Hpcu. lia. }
  set (s3 := with_reg (<[Z.to_nat R_PC := (pc + 1) mod 65536]> (reg s)) s).
  assert (Hstep : step s = add (add_imm_word r r (k mod 32)) s3).
  { rewrite (step_eq _ _ _ s pc _ s Hlen Hpc Hread Hw), Hop.
    unfold VM.dispatch. rewrite Z.eqb_refl. reflexivity. }
  assert (Hwf3 : wf_reg s3)
    by (apply wf_reg_insert; [assumption | apply to_uint16_range]).
  assert (Hget3 : forall j, 0 <= j ->
            get_reg j s3 = if j =? R_PC then Some ((pc + 1) mod 65536)
                           else get_reg j s).
  { intros j Hj. unfold s3.
    apply get_reg_with_reg_insert; [assumption | unfold R_PC, R_COUNT; lia | assumption]. }
  assert (Hv3 : get_reg r s3 = Some v).
  { rewrite Hget3 by lia.
    destruct (Z.eqb_spec r R_PC) as [E|_]; [unfold R_PC in E; lia | assumption]. }
  destruct (add_imm_effect r r k s3 v Hwf3 Hr Hr Hk Hv3)
    as (s' & Hadd & Hd & Hc & Hoth & Hmem & Hrun & Hwf').
  exists s'. split; [rewrite Hstep; assumption|]. split.
  { rewrite Hoth by (unfold R_PC, R_COND; lia).
    rewrite Hget3 by (unfold R_PC; lia). rewrite Z.eqb_refl, Hnext. reflexivity. }
  split; [assumption|]. split; [assumption|]. split.
  { intros j Hj Hjr Hjc Hjp. rewrite Hoth by assumption.
    rewrite Hget3 by assumption.
    destruct (Z.eqb_spec j R_PC); [contradiction | reflexivity]. }
  split; [rewrite Hmem; reflexivity|].
  split; [rewrite Hrun; reflexivity | assumption].
Qed.

(** X13. Straight-line code runs in sequence.  When the [n] cells from
    the program counter on all hold [ADD r, r, #k], [n] iterations of a
    running loop leave [r] increased by [n * k] modulo 2^16, the program
    counter [n] addresses further, the flags describing [r] (if [n > 0]),
    the other general registers and the memory as they were, and the
    loop still running. *)
Theorem run_repeated_add_immediate n r k :
  0 <= r < 8 -> -16 <= k <= 15 ->
  forall s pc v,
    wf_reg s -> running s = true ->
    get_reg R_PC s = Some pc -> get_reg r s = Some v ->
    pc + Z.of_nat n <= 65535 ->
    (forall a t, pc <= a < pc + Z.of_nat n -> memory t = memory s ->
       mem_read a t = Some (add_imm_word r r (k mod 32), t)) ->
    exists s',
      run n s = Some s' /\
      get_reg r s' = Some ((v + Z.of_nat n * k) mod 65536) /\
      get_reg R_PC s' = Some (pc + Z.of_nat n) /\
      ((0 < n)%nat ->
       get_reg R_COND s' = Some (flag_of ((v + Z.of_nat n * k) mod 65536))) /\
      (forall j, 0 <= j < 8 -> j <> r -> get_reg j s' = get_reg j s) /\
      memory s' = memory s /\ running s' = true /\ wf_reg s'.
Proof.
  intros Hr Hk. induction n as [|n IH]; intros s pc v Hwf Hrun Hpc Hv Hend Hcode.
  - exists s. cbn [VM.run].
    assert (Hvu : is_uint16 v).
    { destruct (get_reg_total s r Hwf) as [x [Hx Hxu]];
        [unfold R_COUNT; lia | congruence]. }
    split; [reflexivity|]. split.
    { rewrite Z.mul_0_l, Z.add_0_r, Z.mod_small by exact Hvu. assumption. }
    split; [rewrite Z.add_0_r; assumption|].
    split; [intros H; inversion H|].
    split; [intros; reflexivity|]. split; [reflexivity|]. split; assumption.
  - assert (Hread : mem_read pc s = Some (add_imm_word r r (k mod 32), s))
      by (apply Hcode; [lia | reflexivity]).
    destruct (step_add_immediate s pc r k v Hwf Hpc ltac:(lia) Hr Hk Hv Hread)
      as (s1 & Hstep & Hpc1 & Hv1 & Hc1 & Hoth1 & Hmem1 & Hrun1 & Hwf1).
    destruct (IH s1 (pc + 1) ((v + k) mod 65536) Hwf1
                ltac:(rewrite Hrun1; assumption) Hpc1 Hv1 ltac:(lia))
      as (s' & Hn & Hv' & Hpc' & Hc' & Hoth' & Hmem' & Hrun' & Hwf').
    { intros a t Ha Ht. apply Hcode; [lia | congruence]. }
    assert (Hval : ((v + k) mod 65536 + Z.of_nat n * k) mod 65536
                   = (v + Z.of_nat (S n) * k) mod 65536).
    { rewrite Zplus_mod_idemp_l. f_equal. lia. }
    exists s'. split.
    { cbn [VM.run]. rewrite Hrun, Hstep. exact Hn. }
    split; [rewrite <- Hval; assumption|].
    split; [rewrite Hpc'; f_equal; lia|]. split.
    { intros _. destruct n as [|n'].
      - cbn [VM.run] in Hn. injection Hn as <-.
        rewrite <- Hval, Z.mul_0_l, Z.add_0_r, Z.mod_mod by lia. assumption.
      - rewrite <- Hval. apply Hc'. lia. }
    split.
    { intros j Hj Hjr. rewrite Hoth' by assumption.
      apply Hoth1; unfold R_COND, R_PC; lia. }
    split; [congruence|]. split; assumption.
Qed.

End LoopMore.

(** ** Instances of the further properties *)

Lemma update_flags_idempotent_witness :
  (wf_reg example_machine /\ 0 <= R_R0 < R_COUNT) /\
  exists s1, update_flags R_R0 example_machine = Some s1 /\
             update_flags R_R0 s1 = Some s1.
Proof.
  assert (H1 : wf_reg example_machine) by apply example_regs_wf.
  assert (H2 : 0 <= R_R0 < R_COUNT) by (unfold R_R0, R_COUNT; lia).
  split; [split; assumption|].
  destruct (update_flags_idempotent R_R0 example_machine H1 H2)
    as (s1 & Hfirst & Hagain & _).
  exists s1. split; [assumption|].
  apply Hagain. unfold R_R0, R_COND. lia.
Defined.

Lemma add_keeps_machine_invariants_witness :
  wf_reg example_machine /\
  exists s', add 0x107E example_machine = Some s' /\
             wf_reg s' /\ get_reg R_PC s' = get_reg R_PC example_machine.
Proof.
  assert (H1 : wf_reg example_machine) by apply example_regs_wf.
  split; [assumption|].
  destruct (add_keeps_machine_invariants 0x107E example_machine H1)
    as (s' & cond & Hadd & Hwf & Hpc & _).
  exists s'. split; [assumption|]. split; assumption.
Defined.

(** [ADD R0, R1, R2] with bits [4:3] set to 0b11. *)
Lemma add_ignores_unused_bits_witness :
  (bits 5 5 0x1042 = 0 /\ bits 4 3 0x1042 = 0 /\ 0 <= 3 < 4) /\
  add (0x1042 + 8 * 3) example_machine = add 0x1042 example_machine.
Proof.
  assert (H1 : bits 5 5 0x1042 = 0) by reflexivity.
  assert (H2 : bits 4 3 0x1042 = 0) by reflexivity.
  assert (H3 : 0 <= 3 < 4) by lia.
  split; [exact (conj H1 (conj H2 H3))|].
  exact (proj2 (add_ignores_unused_bits 0x1042 example_machine) H1 H2 3 H3).
Defined.

Lemma add_register_mode_commutes_witness :
  (0 <= 0 < 8 /\ 0 <= 1 < 8 /\ 0 <= 2 < 8) /\
  add (add_reg_word 0 1 2) example_machine
  = add (add_reg_word 0 2 1) example_machine.
Proof.
  assert (H0 : 0 <= 0 < 8) by lia.
  assert (H1 : 0 <= 1 < 8) by lia.
  assert (H2 : 0 <= 2 < 8) by lia.
  split; [exact (conj H0 (conj H1 H2))|].
  exact (add_register_mode_commutes 0 1 2 example_machine H0 H1 H2).
Defined.

(** [ADD R0, R1, #-2] with R1 = 3, built from its layout. *)
Lemma add_words_compute_sums_witness :
  (wf_reg example_machine /\ 0 <= 0 < 8 /\ 0 <= 1 < 8 /\
   get_reg 1 example_machine = Some 3) /\
  exists s', add (add_imm_word 0 1 ((-2) mod 32)) example_machine = Some s' /\
             get_reg 0 s' = Some ((3 + -2) mod 65536).
Proof.
  assert (H1 : wf_reg example_machine) by apply example_regs_wf.
  assert (H2 : 0 <= 0 < 8) by lia.
  assert (H3 : 0 <= 1 < 8) by lia.
  assert (H4 : get_reg 1 example_machine = Some 3)
    by exact (proj1 (proj2 (example_regs_get zero_state))).
  split; [exact (conj H1 (conj H2 (conj H3 H4)))|].
  destruct (add_words_compute_sums 0 1 example_machine 3 H1 H2 H3 H4)
    as [Himm _].
  destruct (Himm (-2) ltac:(lia)) as (_ & _ & s' & Hadd & Hd & _).
  exists s'. split; assumption.
Defined.

(** [ADD R1, R1, #5] then [ADD R1, R1, #-5] with R1 = 3. *)
Lemma add_immediate_round_trip_witness :
  (wf_reg example_machine /\ 0 <= 1 < 8 /\ -15 <= 5 <= 15 /\
   get_reg 1 example_machine = Some 3) /\
  exists s1 s2,
    add (add_imm_word 1 1 (5 mod 32)) example_machine = Some s1 /\
    add (add_imm_word 1 1 ((- 5) mod 32)) s1 = Some s2 /\
    get_reg 1 s2 = Some 3.
Proof.
  assert (H1 : wf_reg example_machine) by apply example_regs_wf.
  assert (H2 : 0 <= 1 < 8) by lia.
  assert (H3 : -15 <= 5 <= 15) by lia.
  assert (H4 : get_reg 1 example_machine = Some 3)
    by exact (proj1 (proj2 (example_regs_get zero_state))).
  split; [exact (conj H1 (conj H2 (conj H3 H4)))|].
  destruct (add_immediate_round_trip 1 5 example_machine 3 H1 H2 H3 H4)
    as (s1 & s2 & Ha1 & _ & Ha2 & Hback & _).
  exists s1, s2. split; [assumption|]. split; assumption.
Defined.

(** [ADD R2, R0, R1] (0x1401) with R0 = 0x8000 (-32768) and R1 = 3. *)
Lemma add_register_mode_signed_witness :
  (wf_reg example_machine /\ bits 5 5 0x1401 = 0) /\
  exists s' v,
    add 0x1401 example_machine = Some s' /\
    get_reg 2 s' = Some v /\ signed16 v = -32765 /\
    get_reg R_COND s' = Some FL_NEG.
Proof.
  assert (H1 : wf_reg example_machine) by apply example_regs_wf.
  assert (H2 : bits 5 5 0x1401 = 0) by reflexivity.
  split; [split; assumption|].
  destruct (add_register_mode_signed 0x1401 example_machine H1 H2)
    as (a & b & v & cond & s' & Ha & Hb & Hadd & Hd & Hc & Hin & _ & _
        & Hneg & _).
  destruct (example_regs_get zero_state) as (G0 & G1 & _).
  change (get_reg (bits 8 6 0x1401) example_machine)
    with (get_reg 0 (with_reg example_regs zero_state)) in Ha.
  change (get_reg (bits 2 0 0x1401) example_machine)
    with (get_reg 1 (with_reg example_regs zero_state)) in Hb.
  rewrite G0 in Ha. rewrite G1 in Hb.
  injection Ha as <-. injection Hb as <-.
  assert (Hs : signed16 v = -32765).
  { rewrite Hin; [reflexivity|]. unfold signed16. simpl. lia. }
  exists s', v. split; [assumption|]. split; [exact Hd|]. split; [exact Hs|].
  rewrite Hc. f_equal. apply Hneg. rewrite Hs. lia.
Defined.

(** The RES word 0xD000 reaches the last branch of the switch. *)
Lemma decode_reaches_one_case_witness :
  is_uint16 0xD000 /\
  dispatch example_block (Z.shiftr 0xD000 12) 0xD000 example_machine
  = bad_opcode (Z.shiftr 0xD000 12) example_machine.
Proof.
  assert (H1 : is_uint16 0xD000) by (unfold is_uint16; lia).
  split; [assumption|].
  destruct (decode_reaches_one_case example_block 0xD000 example_machine H1)
    as (_ & _ & _ & _ & Hbad).
  apply Hbad. left. reflexivity.
Defined.

(** An iteration on [ADD R0, R1, #-2] fetched from 0x3000. *)
Lemma add_step_witness :
  (wf_reg example_add_machine /\
   get_reg R_PC example_add_machine = Some 0x3000 /\
   mem_read example_kbsr example_poll 0x3000 example_add_machine
   = Some (0x107E, example_add_machine) /\
   is_uint16 0x107E /\ bits 15 12 0x107E = OP_ADD) /\
  exists s',
    step example_kbsr example_poll example_block example_add_machine = Some s' /\
    get_reg R_PC s' = Some ((0x3000 + 1) mod 65536) /\
    running s' = running example_add_machine.
Proof.
  assert (H1 : wf_reg example_add_machine)
    by (apply wf_reg_poke, example_regs_wf).
  assert (H2 : get_reg R_PC example_add_machine = Some 0x3000) by reflexivity.
  assert (H3 : mem_read example_kbsr example_poll 0x3000 example_add_machine
               = Some (0x107E, example_add_machine)).
  { apply mem_read_poke.
    - apply example_machine_wf.
    - unfold MEMORY_CELLS, UINT16_MAX. lia.
    - unfold example_kbsr. lia. }
  assert (H4 : is_uint16 0x107E) by (unfold is_uint16; lia).
  assert (H5 : bits 15 12 0x107E = OP_ADD) by reflexivity.
  split; [exact (conj H1 (conj H2 (conj H3 (conj H4 H5))))|].
  destruct (add_step example_kbsr example_poll example_block
              example_add_machine 0x3000 0x107E example_add_machine
              H1 H2 H3 H4 H5)
    as (a & operand & s' & _ & _ & _ & Hstep & Hpc & _ & _ & _ & _ & Hrun & _).
  exists s'. split; [assumption|]. split; assumption.
Defined.

(** Two copies of [ADD R1, R1, #5] from 0x3000, with R1 = 3. *)
Lemma run_repeated_add_immediate_witness :
  (wf_reg example_two_adds_machine /\
   running example_two_adds_machine = true /\
   get_reg R_PC example_two_adds_machine = Some 0x3000 /\
   get_reg 1 example_two_adds_machine = Some 3) /\
  exists s',
    run example_kbsr example_poll example_block 2 example_two_adds_machine
    = Some s' /\
    get_reg 1 s' = Some ((3 + Z.of_nat 2 * 5) mod 65536) /\
    get_reg R_PC s' = Some (0x3000 + Z.of_nat 2) /\
    running s' = true.
Proof.
  assert (Hm0 : wf_memory example_machine) by apply example_machine_wf.
  assert (Hb : forall a, 0 <= a < 65535 -> 0 <= a < MEMORY_CELLS)
    by (unfold MEMORY_CELLS, UINT16_MAX; lia).
  assert (H1 : wf_reg example_two_adds_machine)
    by (apply wf_reg_with_running, wf_reg_poke, wf_reg_poke, example_regs_wf).
  assert (H2 : running example_two_adds_machine = true) by reflexivity.
  assert (H3 : get_reg R_PC example_two_adds_machine = Some 0x3000)
    by reflexivity.
  assert (H4 : get_reg 1 example_two_adds_machine = Some 3) by reflexivity.
  split; [exact (conj H1 (conj H2 (conj H3 H4)))|].
  assert (Hcell : forall a, 0x3000 <= a < 0x3000 + Z.of_nat 2 ->
            Array.get (memory example_two_adds_machine) a
            = Some (add_imm_word 1 1 (5 mod 32))).
  { intros a Ha.
    unfold example_two_adds_machine. rewrite memory_with_running.
    destruct (Z.eq_dec a (0x3000 + 1)) as [->|Hne].
    - apply peek_poke; [apply wf_memory_poke; assumption | apply Hb; lia].
    - rewrite peek_poke_ne
        by (try apply wf_memory_poke; auto; first [apply Hb; lia | lia]).
      replace a with 0x3000 by lia.
      apply peek_poke; [assumption | apply Hb; lia]. }
  assert (Hcode : forall a t, 0x3000 <= a < 0x3000 + Z.of_nat 2 ->
            memory t = memory example_two_adds_machine ->
            mem_read example_kbsr example_poll a t
            = Some (add_imm_word 1 1 (5 mod 32), t)).
  { intros a t Ha Ht.
    assert (Hs : a mod 65536 = a) by (apply Z.mod_small; lia).
    rewrite mem_read_plain by (rewrite Hs; unfold example_kbsr; lia).
    rewrite Hs, Ht, (Hcell a Ha). reflexivity. }
  destruct (run_repeated_add_immediate example_kbsr example_poll example_block
              2 1 5 ltac:(lia) ltac:(lia)
              example_two_adds_machine 0x3000 3 H1 H2 H3 H4 ltac:(lia) Hcode)
    as (s' & Hrun & Hv & Hpc & _ & _ & _ & Hr & _).
  exists s'. split; [assumption|]. split; [assumption|]. split; assumption.
Defined.
